(** * Aurora FlatSat: ingestion and protocol-encoding layer

    A shallow embedding of the device encoders (rate sensor, magnetometer,
    reaction wheel) and of the channel listeners' sample parsing, with the
    properties of the design document stated and proved over it.

    Conventions of the embedding:
    - a Python [float] is an IEEE-754 binary64 value, represented by the
      standard library's [spec_float] with precision 53 and maximal
      exponent 1024; arithmetic and comparisons are the library's [SFdiv],
      [SFmul], [SFltb], ... at that format;
    - a Python [int] is a [Z];
    - a [bytes] object is a [list byte];
    - a raised exception is the [Raise] case of [result];
    - a Python [dict] keyed by port numbers is a [gmap Z _]. *)

From Stdlib Require Import ZArith List Lia Bool.
From Stdlib Require Import Strings.Byte.
From Stdlib Require Import Floats.SpecFloat Floats.PrimFloat Floats.FloatOps.
From stdpp Require Import base option list gmap.
Import ListNotations.

#[local] Set Warnings "-inexact-float".
#[local] Open Scope Z_scope.

(** ** Exceptions *)

Inductive exn : Type :=
| ValueError
| OverflowError
| StructError
| KeyError.

Inductive result (A : Type) : Type :=
| Ok (a : A)
| Raise (e : exn).
Arguments Ok {A} a.
Arguments Raise {A} e.

Definition rbind {A B : Type} (r : result A) (k : A -> result B) : result B :=
  match r with
  | Ok a => k a
  | Raise e => Raise e
  end.

(** [try: body except Exception: handler] *)
Definition try_except {A : Type} (body : result A) (handler : exn -> result A)
  : result A :=
  match body with
  | Ok a => Ok a
  | Raise e => handler e
  end.

Declare Scope result_scope.
Delimit Scope result_scope with result.
Notation "x <- r ;; k" := (rbind r (fun x => k))
  (at level 100, r at next level, right associativity) : result_scope.
#[local] Open Scope result_scope.

(** ** Bytes *)

Definition bytes := list byte.

Definition Z_of_byte (b : byte) : Z := Z.of_N (Byte.to_N b).

(** The byte whose value is [z mod 256]. *)
Definition byte_of_Z (z : Z) : byte :=
  match Byte.of_N (Z.to_N (z mod 256)) with
  | Some b => b
  | None => x00
  end.

(** [sum(data)] over a bytes object. *)
Definition sum_bytes (l : bytes) : Z :=
  fold_right (fun b acc => Z_of_byte b + acc) 0 l.

(** [int.from_bytes(l, 'little')] and [int.from_bytes(l, 'big')]: how a
    receiver reads an unsigned field back. *)
Fixpoint le_value (l : bytes) : Z :=
  match l with
  | [] => 0
  | b :: t => Z_of_byte b + 256 * le_value t
  end.

Definition be_value (l : bytes) : Z := le_value (rev l).

(** Reading of a [w]-bit field as a two's-complement signed number. *)
Definition signed (w : Z) (u : Z) : Z :=
  if u <? 2 ^ (w - 1) then u else u - 2 ^ w.

(** [n] little-endian bytes of [z] (low byte first). *)
Fixpoint le_bytes (n : nat) (z : Z) : bytes :=
  match n with
  | O => []
  | S n' => byte_of_Z z :: le_bytes n' (z / 256)
  end.

Definition be_bytes (n : nat) (z : Z) : bytes := rev (le_bytes n z).

Definition int16 (k : Z) : Prop := -32768 <= k <= 32767.
Definition int32 (k : Z) : Prop := -2147483648 <= k <= 2147483647.
Definition uint16 (k : Z) : Prop := 0 <= k < 65536.

(** ** [struct.pack] for integer formats

    [struct.pack] raises [struct.error] when the argument does not fit the
    format. *)

Definition pack_uint (big : bool) (n : nat) (v : Z) : result bytes :=
  if (0 <=? v) && (v <? 2 ^ (8 * Z.of_nat n))
  then Ok (if big then be_bytes n v else le_bytes n v)
  else Raise StructError.

Definition pack_sint (big : bool) (n : nat) (v : Z) : result bytes :=
  if (- 2 ^ (8 * Z.of_nat n - 1) <=? v) && (v <? 2 ^ (8 * Z.of_nat n - 1))
  then Ok (if big then be_bytes n v else le_bytes n v)
  else Raise StructError.

(** ['<h'], ['<H'], ['<i'], ['>H'], ['B'] *)
Definition pack_le_h := pack_sint false 2.
Definition pack_le_H := pack_uint false 2.
Definition pack_le_i := pack_sint false 4.
Definition pack_be_H := pack_uint true 2.
Definition pack_B := pack_uint false 1.

(** [bytearray.append(v)] and [bytes([v])]: [ValueError] outside
    [range(256)]. *)
Definition byte_checked (v : Z) : result byte :=
  if (0 <=? v) && (v <? 256) then Ok (byte_of_Z v) else Raise ValueError.

(** ** Floats *)

Definition float := spec_float.

Definition prec : Z := 53.
Definition emax : Z := 1024.

Definition fdiv : float -> float -> float := SFdiv prec emax.
Definition fmul : float -> float -> float := SFmul prec emax.
Definition fadd : float -> float -> float := SFadd prec emax.
Definition fsub : float -> float -> float := SFsub prec emax.
Definition fabs : float -> float := SFabs.
Definition fneg : float -> float := SFopp.
(** [a < b], [a > b], [a == b], [a != b] *)
Definition flt (a b : float) : bool := SFltb a b.
Definition fgt (a b : float) : bool := SFltb b a.
Definition feq (a b : float) : bool := SFeqb a b.
Definition fne (a b : float) : bool := negb (SFeqb a b).

(** A well-formed binary64 value. *)
Definition is_float (x : float) : Prop := valid_binary prec emax x = true.

Definition is_nan (x : float) : bool :=
  match x with S754_nan => true | _ => false end.

Definition is_zero (x : float) : bool :=
  match x with S754_zero _ => true | _ => false end.

Definition is_inf (x : float) : bool :=
  match x with S754_infinity _ => true | _ => false end.

Definition is_finite (x : float) : bool :=
  match x with S754_zero _ | S754_finite _ _ _ => true | _ => false end.

(** The float of an integer literal, as [float(z)] rounds it. *)
Definition float_of_Z (z : Z) : float := binary_normalize prec emax z 0 false.

Definition f_zero : float := S754_zero false.
Definition f_inf : float := S754_infinity false.
Definition f_neg_inf : float := S754_infinity true.

(** [int(x)]: truncation toward zero; [ValueError] on NaN, [OverflowError]
    on an infinity. *)
Definition py_int (x : float) : result Z :=
  match x with
  | S754_zero _ => Ok 0
  | S754_nan => Raise ValueError
  | S754_infinity _ => Raise OverflowError
  | S754_finite s m e => Ok (cond_Zopp s (Z.shiftl (Zpos m) e))
  end.

(** The exact value of a finite float as a fraction [num / den] with
    [den > 0]. *)
Definition fraction_of (x : float) : option (Z * Z) :=
  match x with
  | S754_zero _ => Some (0, 1)
  | S754_finite s m e =>
      Some (if 0 <=? e then (cond_Zopp s (Zpos m * 2 ^ e), 1)
            else (cond_Zopp s (Zpos m), 2 ^ (- e)))
  | _ => None
  end.

(** Truncation toward zero of the exact value of a finite float. *)
Definition trunc_float (x : float) : option Z :=
  match fraction_of x with
  | Some (num, den) => Some (Z.quot num den)
  | None => None
  end.

(** Saturation to [lo, hi]. *)
Definition saturate (lo hi k : Z) : Z :=
  if k <? lo then lo else if hi <? k then hi else k.

(** The built-ins [min(a, b)] and [max(a, b)] on floats: the first argument
    is kept unless the second compares strictly below (above) it. *)
Definition py_min (a b : float) : float := if flt b a then b else a.
Definition py_max (a b : float) : float := if fgt b a then b else a.
Definition py_max3 (a b c : float) : float := py_max (py_max a b) c.

(** [struct.pack('>f', x)]: the double is rounded to binary32 (to nearest,
    ties to even); a finite double that rounds to an infinity raises
    [OverflowError]; the four bytes are the IEEE bit pattern, high byte
    first.  A NaN is written as the quiet NaN [0x7FC00000]. *)
Definition to_binary32 (x : float) : float :=
  match x with
  | S754_finite s m e => binary_round 24 128 s m e
  | _ => x
  end.

Definition bits_of_binary32 (x : float) : Z :=
  let sign (s : bool) := if s then 0x80000000 else 0 in
  match x with
  | S754_zero s => sign s
  | S754_infinity s => sign s + 0x7F800000
  | S754_nan => 0x7FC00000
  | S754_finite s m e =>
      sign s + (if Zpos m <? 2 ^ 23 then Zpos m
                else (e + 150) * 2 ^ 23 + (Zpos m - 2 ^ 23))
  end.

Definition pack_be_f (x : float) : result bytes :=
  let y := to_binary32 x in
  if is_inf y && negb (is_inf x) then Raise OverflowError
  else Ok (be_bytes 4 (bits_of_binary32 y)).

(** Literals of the source. *)
Definition f_1e6 : float := Eval vm_compute in Prim2SF 1e6%float.
Definition f_neg_1e6 : float := Eval vm_compute in Prim2SF (-1e6)%float.
Definition f_1eneg6 : float := Eval vm_compute in Prim2SF 1e-6%float.
Definition f_0_1 : float := Eval vm_compute in Prim2SF 0.1%float.
Definition f_0_5 : float := Eval vm_compute in Prim2SF 0.5%float.
Definition f_0_7 : float := Eval vm_compute in Prim2SF 0.7%float.
Definition f_1 : float := Eval vm_compute in Prim2SF 1%float.
Definition f_100 : float := Eval vm_compute in Prim2SF 100%float.
Definition f_1000 : float := Eval vm_compute in Prim2SF 1000%float.

(** ** The outside world: the clock and the random generator

    [time.time()] and [random.random()] read successive values of two
    sequences the program does not control. *)

Record World : Type := mkWorld {
  clock : nat -> float;
  clock_pos : nat;
  entropy : nat -> float;
  entropy_pos : nat
}.

Definition time_time (w : World) : float * World :=
  (clock w (clock_pos w),
   mkWorld (clock w) (S (clock_pos w)) (entropy w) (entropy_pos w)).

Definition random_random (w : World) : float * World :=
  (entropy w (entropy_pos w),
   mkWorld (clock w) (clock_pos w) (entropy w) (S (entropy_pos w))).

(** [random.uniform(a, b)] is [a + (b - a) * random()]. *)
Definition random_uniform (a b : float) (w : World) : float * World :=
  let (u, w') := random_random w in
  (fadd a (fmul (fsub b a) u), w').

(** A world for examples: the clock stands at zero and every random draw
    is one half. *)
Definition still_world : World :=
  mkWorld (fun _ => f_zero) 0 (fun _ => f_0_5) 0.

(** * Rate sensor encoder ([ars_encoder.py]) *)

Module ARS.

Record ARSData : Type := mkARSData {
  prime_x : float;
  prime_y : float;
  prime_z : float;
  redundant_x : float;
  redundant_y : float;
  redundant_z : float;
  prime_angle_x : float;
  prime_angle_y : float;
  prime_angle_z : float;
  redundant_angle_x : float;
  redundant_angle_y : float;
  redundant_angle_z : float;
  ars_timestamp : float
}.

Record RateSensorPacket : Type := mkPacket {
  angular_rate_x : float;
  angular_rate_y : float;
  angular_rate_z : float;
  status_word_1 : Z;
  status_word_2 : Z;
  status_word_3 : Z;
  summed_angle_x : float;
  summed_angle_y : float;
  summed_angle_z : float;
  timestamp : float;
  packet_counter : Z
}.

(** *** StatusWordBuilder *)

Definition set_bit_if (c : bool) (i : Z) (word : Z) : Z :=
  if c then Z.lor word (Z.shiftl 1 i) else word.

Definition build_status_word_1 (counter bit_mode : Z)
  (rate_sensor_failed gyro_failed agc_voltage_failed : bool) : Z :=
  let word := 0 in
  let word := Z.lor word (Z.land counter 0x03) in
  let word := Z.lor word (Z.shiftl (Z.land bit_mode 0x03) 2) in
  let word := set_bit_if rate_sensor_failed 4 word in
  let word := set_bit_if gyro_failed 5 word in
  let word := set_bit_if agc_voltage_failed 7 word in
  Z.land word 0xFFFF.

Definition build_status_word_2 (gyro_temperature_a : Z)
  (motor_bias_voltage_failed start_data_flag processor_failed
   memory_failed : bool) : Z :=
  let word := 0 in
  let word := Z.lor word (Z.land gyro_temperature_a 0xFF) in
  let word := set_bit_if motor_bias_voltage_failed 8 word in
  let word := set_bit_if start_data_flag 9 word in
  let word := set_bit_if processor_failed 10 word in
  let word := set_bit_if memory_failed 11 word in
  Z.land word 0xFFFF.

Definition build_status_word_3 (gyro_a_start_run gyro_b_start_run
  gyro_c_start_run gyro_a_fdc gyro_b_fdc gyro_c_fdc fdc_failed
  rs_ok : bool) : Z :=
  let word := 0 in
  let word := set_bit_if gyro_a_start_run 8 word in
  let word := set_bit_if gyro_b_start_run 9 word in
  let word := set_bit_if gyro_c_start_run 10 word in
  let word := set_bit_if gyro_a_fdc 11 word in
  let word := set_bit_if gyro_b_fdc 12 word in
  let word := set_bit_if gyro_c_fdc 13 word in
  let word := set_bit_if fdc_failed 14 word in
  let word := set_bit_if rs_ok 15 word in
  Z.land word 0xFFFF.

(** *** MessageEncoder *)

(** [600 * (2 ** -23)] and [2 ** -27] *)
Definition ANGULAR_RATE_SCALE : float :=
  Eval vm_compute in Prim2SF (600 * 0x1p-23)%float.
Definition ANGLE_SCALE : float := Eval vm_compute in Prim2SF 0x1p-27%float.

(** The guard [if abs(v) > 1e6: v = max(-1e6, min(1e6, v))]. *)
Definition limit_extreme (v : float) : float :=
  if fgt (fabs v) f_1e6 then py_max f_neg_1e6 (py_min f_1e6 v) else v.

(** The shared body of [encode_angular_rate] and [encode_angle]: the inner
    [try] turns an [OverflowError] of [int] into the extreme of the range,
    the clamp saturates, [struct.pack] writes [n] bytes, and the outer
    [except Exception] packs zero. *)
Definition encode_fixed (scale : float) (n : nat) (lo hi : Z) (v : float)
  : result bytes :=
  try_except
    (let v := limit_extreme v in
     lsb_value <-
       match py_int (fdiv v scale) with
       | Raise OverflowError => Ok (if fgt v f_zero then hi else lo)
       | r => r
       end ;;
     let lsb_value := Z.max lo (Z.min hi lsb_value) in
     pack_sint false n lsb_value)
    (fun _ => pack_sint false n 0).

Definition encode_angular_rate (rate_rad_per_sec : float) : result bytes :=
  encode_fixed ANGULAR_RATE_SCALE 2 (-32768) 32767 rate_rad_per_sec.

Definition encode_angle (angle_rad : float) : result bytes :=
  encode_fixed ANGLE_SCALE 4 (-2147483648) 2147483647 angle_rad.

Definition SYNC : byte := byte_of_Z 0xAA.

Definition encode_message (data : RateSensorPacket) : result bytes :=
  let message := [SYNC] in
  rx <- encode_angular_rate (angular_rate_x data) ;;
  ry <- encode_angular_rate (angular_rate_y data) ;;
  rz <- encode_angular_rate (angular_rate_z data) ;;
  let message := message ++ rx ++ ry ++ rz in
  s1 <- pack_le_H (status_word_1 data) ;;
  s2 <- pack_le_H (status_word_2 data) ;;
  s3 <- pack_le_H (status_word_3 data) ;;
  let message := message ++ s1 ++ s2 ++ s3 in
  ax <- encode_angle (summed_angle_x data) ;;
  ay <- encode_angle (summed_angle_y data) ;;
  az <- encode_angle (summed_angle_z data) ;;
  let message := message ++ ax ++ ay ++ az in
  let checksum := Z.land (sum_bytes (skipn 1 message)) 0xFFFF in
  ck <- pack_le_H checksum ;;
  Ok (message ++ ck).

(** *** ARSEncoder *)

Record ARSEncoder : Type := mkEncoder {
  message_counter : Z;
  last_data_time : float;
  duplicate_to_redundant : bool;
  variation_percent : float
}.

(** [ARSEncoder(duplicate_to_redundant, variation_percent)] *)
Definition init (dup : bool) (variation : float) : ARSEncoder :=
  mkEncoder 0 f_zero dup variation.

Definition _add_variation (self : ARSEncoder) (value : float) (w : World)
  : float * World :=
  if feq (variation_percent self) f_zero then (value, w)
  else if fgt (fabs value) f_1e6 then (value, w)
  else
    let variation := fdiv (variation_percent self) f_100 in
    let (u, w) := random_uniform (fneg variation) variation w in
    let factor := fadd f_1 u in
    let result := fmul value factor in
    if negb (flt f_neg_inf result && flt result f_inf) then (value, w)
    else (result, w).

Definition has_data_of (d : ARSData) : bool :=
  (fne (prime_x d) f_zero || fne (prime_y d) f_zero
   || fne (prime_z d) f_zero)
  || (fne (redundant_x d) f_zero || fne (redundant_y d) f_zero
      || fne (redundant_z d) f_zero).

Definition has_discrepancy_of (d : ARSData) : bool :=
  let rate_diff_x := fabs (fsub (prime_x d) (redundant_x d)) in
  let rate_diff_y := fabs (fsub (prime_y d) (redundant_y d)) in
  let rate_diff_z := fabs (fsub (prime_z d) (redundant_z d)) in
  let max_rate_diff := py_max3 rate_diff_x rate_diff_y rate_diff_z in
  fgt max_rate_diff f_0_1.

(** [_update_status_words]: returns the packet with its three status words
    set, and the encoder with [last_data_time] refreshed. *)
Definition _update_status_words (self : ARSEncoder) (packet : RateSensorPacket)
  (ars_data : ARSData) (w : World) : RateSensorPacket * ARSEncoder * World :=
  let has_data := has_data_of ars_data in
  let has_discrepancy := has_discrepancy_of ars_data in
  let (current_time, w) := time_time w in
  let self := mkEncoder (message_counter self) current_time
                (duplicate_to_redundant self) (variation_percent self) in
  let sw1 := build_status_word_1 (message_counter self mod 4) 1
               (negb has_data) has_discrepancy false in
  let sw2 := build_status_word_2 25 false false false false in
  let sw3 := build_status_word_3 has_data has_data has_data
               has_discrepancy has_discrepancy has_discrepancy
               has_discrepancy (has_data && negb has_discrepancy) in
  (mkPacket (angular_rate_x packet) (angular_rate_y packet)
     (angular_rate_z packet) sw1 sw2 sw3
     (summed_angle_x packet) (summed_angle_y packet) (summed_angle_z packet)
     (timestamp packet) (packet_counter packet),
   self, w).

Definition convert_ars_data (self : ARSEncoder) (ars_data : ARSData)
  (w : World) : RateSensorPacket * ARSEncoder * World :=
  let packet :=
    mkPacket (prime_x ars_data) (prime_y ars_data) (prime_z ars_data)
      0 0 0
      (prime_angle_x ars_data) (prime_angle_y ars_data)
      (prime_angle_z ars_data)
      (ars_timestamp ars_data) (message_counter self) in
  let '(packet, self, w) := _update_status_words self packet ars_data w in
  let self := mkEncoder (message_counter self + 1) (last_data_time self)
                (duplicate_to_redundant self) (variation_percent self) in
  (packet, self, w).

(** [convert_matlab_data]: [None] when the input is rejected. *)
Definition convert_matlab_data (self : ARSEncoder) (matlab_data : list float)
  (w : World) : option RateSensorPacket * ARSEncoder * World :=
  match matlab_data with
  | [d0; d1; d2; d3; d4; d5] =>
      if duplicate_to_redundant self then
        let (rx, w) := _add_variation self d0 w in
        let (ry, w) := _add_variation self d1 w in
        let (rz, w) := _add_variation self d2 w in
        let (rax, w) := _add_variation self d3 w in
        let (ray, w) := _add_variation self d4 w in
        let (raz, w) := _add_variation self d5 w in
        let (now, w) := time_time w in
        let ars_data := mkARSData d0 d1 d2 rx ry rz d3 d4 d5 rax ray raz now in
        let '(p, self, w) := convert_ars_data self ars_data w in
        (Some p, self, w)
      else (None, self, w)
  | [d0; d1; d2; d3; d4; d5; d6; d7; d8; d9; d10; d11] =>
      let (now, w) := time_time w in
      let ars_data := mkARSData d0 d1 d2 d3 d4 d5 d6 d7 d8 d9 d10 d11 now in
      let '(p, self, w) := convert_ars_data self ars_data w in
      (Some p, self, w)
  | _ => (None, self, w)
  end.

Definition encode_packet (packet : RateSensorPacket) : result bytes :=
  encode_message packet.

(** [process_matlab_data]: the frame, [None] for a rejected input, or the
    exception that escapes. *)
Definition process_matlab_data (self : ARSEncoder) (matlab_data : list float)
  (w : World) : result (option bytes) * ARSEncoder * World :=
  let '(packet, self, w) := convert_matlab_data self matlab_data w in
  match packet with
  | None => (Ok None, self, w)
  | Some p =>
      (match encode_packet p with
       | Ok b => Ok (Some b)
       | Raise e => Raise e
       end, self, w)
  end.

(** *** Vocabulary of the frame layout

    The frame that holds the given field values: the sync byte, then the
    fields in little-endian byte order, then the checksum field. *)
Definition frame_body (rx ry rz s1 s2 s3 ax ay az : Z) : bytes :=
  le_bytes 2 rx ++ le_bytes 2 ry ++ le_bytes 2 rz
  ++ le_bytes 2 s1 ++ le_bytes 2 s2 ++ le_bytes 2 s3
  ++ le_bytes 4 ax ++ le_bytes 4 ay ++ le_bytes 4 az.

Definition frame_of (rx ry rz s1 s2 s3 ax ay az ck : Z) : bytes :=
  SYNC :: frame_body rx ry rz s1 s2 s3 ax ay az ++ le_bytes 2 ck.

(** An input is accepted when it has 12 floats, or 6 floats with the
    duplication option on. *)
Definition accepted (self : ARSEncoder) (data : list float) : Prop :=
  length data = 12%nat
  \/ (length data = 6%nat /\ duplicate_to_redundant self = true).

(** The sample input of the module's self-test ([main]). *)
Definition test_data : list float :=
  Eval vm_compute in
    map Prim2SF
      [0.1; -0.05; 0.02; 0.09; -0.051; 0.021;
       1.0; -0.5; 0.2; 0.99; -0.49; 0.19]%float.

(** *** Vocabulary of the fixed-point conversion *)

(** Saturating truncation of a float quotient: a finite quotient is
    truncated toward zero and saturated, an infinite one saturates at the
    end of its sign, and a NaN gives zero. *)
Definition sat_trunc (lo hi : Z) (q : float) : Z :=
  match q with
  | S754_nan => 0
  | S754_infinity s => if s then lo else hi
  | _ => match trunc_float q with
         | Some k => saturate lo hi k
         | None => 0
         end
  end.

(** Rounding of the fraction [num / den] to the nearest integer, ties to
    the even one: the [round] of the design document. *)
Definition round_nearest (num den : Z) : Z :=
  let q := num / den in
  let r := num mod den in
  if 2 * r <? den then q
  else if den <? 2 * r then q + 1
  else if Z.even q then q else q + 1.

(** The exact quotient [v / scale] of two finite floats, [scale > 0], as a
    fraction. *)
Definition exact_quotient (v scale : float) : option (Z * Z) :=
  match fraction_of v, fraction_of scale with
  | Some (nv, dv), Some (ns, ds) => Some (nv * ds, dv * ns)
  | _, _ => None
  end.

(** The rate field as the design document words it:
    [round(r / (600 * 2^-23))] saturated to the signed 16-bit range. *)
Definition documented_rate_field (r : float) : option Z :=
  match exact_quotient r ANGULAR_RATE_SCALE with
  | Some (num, den) => Some (saturate (-32768) 32767 (round_nearest num den))
  | None => None
  end.

(** [1.75 * 600 * 2^-23], a rate of one and three quarters LSB. *)
Definition rate_1_75_lsb : float :=
  Eval vm_compute in Prim2SF (1.75 * (600 * 0x1p-23))%float.

Definition f_2e6 : float := Eval vm_compute in Prim2SF 2e6%float.

(** *** Vocabulary of the status words *)

(** The six rate values of an input are all zero. *)
Definition all_rates_zero (d : ARSData) : bool :=
  is_zero (prime_x d) && is_zero (prime_y d) && is_zero (prime_z d)
  && is_zero (redundant_x d) && is_zero (redundant_y d)
  && is_zero (redundant_z d).

(** The absolute differences between the primary and the redundant rate,
    per axis. *)
Definition rate_diff_x (d : ARSData) : float :=
  fabs (fsub (prime_x d) (redundant_x d)).
Definition rate_diff_y (d : ARSData) : float :=
  fabs (fsub (prime_y d) (redundant_y d)).
Definition rate_diff_z (d : ARSData) : float :=
  fabs (fsub (prime_z d) (redundant_z d)).

(** Where the primary angles start in an input: after the three primary
    rates of a 6-float input, after the six rates of a 12-float input. *)
Definition angle_offset (data : list float) : nat :=
  if (length data =? 12)%nat then 6%nat else 3%nat.

(** The self-test input as an [ARSData]. *)
Definition test_ars_data : ARSData :=
  Eval vm_compute in
    mkARSData (Prim2SF 0.1) (Prim2SF (-0.05)) (Prim2SF 0.02)
      (Prim2SF 0.09) (Prim2SF (-0.051)) (Prim2SF 0.021)
      (Prim2SF 1.0) (Prim2SF (-0.5)) (Prim2SF 0.2)
      (Prim2SF 0.99) (Prim2SF (-0.49)) (Prim2SF 0.19) f_zero.

(** Twelve zeros: an input without data. *)
Definition zero_data : list float := repeat f_zero 12.

(** The packets of a sequence of inputs fed to one encoder, in order. *)
Fixpoint convert_all (self : ARSEncoder) (inputs : list (list float))
  (w : World) : list (option RateSensorPacket) :=
  match inputs with
  | [] => []
  | data :: rest =>
      let '(p, self, w) := convert_matlab_data self data w in
      p :: convert_all self rest w
  end.

(** The fields a receiver reads back from a frame. *)
Definition field (off len : nat) (frame : bytes) : Z :=
  le_value (firstn len (skipn off frame)).

End ARS.

(** * Magnetometer encoder ([magnetometer_encoder.py]) *)

Module Mag.

Inductive MagnetometerStatus : Type :=
| NORMAL
| WARNING
| ERROR
| CRITICAL
| CALIBRATION_MODE
| MEMORY_ERROR
| COMMUNICATION_ERROR.

Definition status_value (s : MagnetometerStatus) : Z :=
  match s with
  | NORMAL => 0x00
  | WARNING => 0x01
  | ERROR => 0x02
  | CRITICAL => 0x03
  | CALIBRATION_MODE => 0x04
  | MEMORY_ERROR => 0x05
  | COMMUNICATION_ERROR => 0x06
  end.

Inductive MessageType : Type :=
| MAGDATA
| MAGTEMP
| MAGID
| MEMREAD
| MEMWRITE
| MEMCMD
| OPMODE
| STATUS.

Definition type_value (t : MessageType) : Z :=
  match t with
  | MAGDATA => 0x01
  | MAGTEMP => 0x02
  | MAGID => 0x03
  | MEMREAD => 0x04
  | MEMWRITE => 0x05
  | MEMCMD => 0x06
  | OPMODE => 0x07
  | STATUS => 0x08
  end.

Record MagnetometerPacket : Type := mkPacket {
  x_field : float;
  y_field : float;
  z_field : float;
  temperature : float;
  status : MagnetometerStatus;
  message_type : MessageType;
  timestamp : float
}.

(** [int(f) & 0xFFFF] *)
Definition field_word (f : float) : result Z :=
  k <- py_int f ;; Ok (Z.land k 0xFFFF).

(** *** CANEncoder *)

Definition CAN_DATA_ID : Z := 0x101.

Definition can_encode_magdata (packet : MagnetometerPacket)
  : result (Z * bytes) :=
  x_field_int <- field_word (x_field packet) ;;
  y_field_int <- field_word (y_field packet) ;;
  z_field_int <- field_word (z_field packet) ;;
  bx <- pack_be_H x_field_int ;;
  by_ <- pack_be_H y_field_int ;;
  bz <- pack_be_H z_field_int ;;
  st <- byte_checked (status_value (status packet)) ;;
  Ok (CAN_DATA_ID, bx ++ by_ ++ bz ++ [st]).

Definition CAN_TEMP_ID : Z := 0x105.

Definition can_encode_magtemp (packet : MagnetometerPacket)
  : result (Z * bytes) :=
  temp_int <- field_word (temperature packet) ;;
  data <- pack_be_H temp_int ;;
  Ok (CAN_TEMP_ID, data).

(** *** RS485Encoder *)

Record RS485Encoder : Type := mkRS485 {
  sequence_counter : Z
}.

(** One round of the inner loop of [_calculate_crc16]. *)
Definition crc_shift (crc : Z) : Z :=
  if Z.land crc 1 =? 0 then Z.shiftr crc 1
  else Z.lxor (Z.shiftr crc 1) 0xA001.

Definition crc_byte (crc : Z) (b : byte) : Z :=
  Nat.iter 8 crc_shift (Z.lxor crc (Z_of_byte b)).

Definition _calculate_crc16 (data : bytes) : Z :=
  Z.land (fold_left crc_byte data 0xFFFF) 0xFFFF.

(** [struct.pack('<BBH', a, b, c)] *)
Definition pack_le_BBH (a b c : Z) : result bytes :=
  ba <- pack_B a ;;
  bb <- pack_B b ;;
  bc <- pack_le_H c ;;
  Ok (ba ++ bb ++ bc).

Definition rs485_encode_magdata (self : RS485Encoder)
  (packet : MagnetometerPacket) : result (bytes * RS485Encoder) :=
  header <- pack_le_BBH (type_value (message_type packet)) 0x01
              (sequence_counter self) ;;
  x_field_int <- field_word (x_field packet) ;;
  y_field_int <- field_word (y_field packet) ;;
  z_field_int <- field_word (z_field packet) ;;
  bx <- pack_le_H x_field_int ;;
  by_ <- pack_le_H y_field_int ;;
  bz <- pack_le_H z_field_int ;;
  st <- byte_checked (status_value (status packet)) ;;
  let data := bx ++ by_ ++ bz ++ [st] in
  cmd <- byte_checked 0x01 ;;
  let crc_data := header ++ [cmd] ++ data in
  let crc := _calculate_crc16 crc_data in
  crc_bytes <- pack_le_H crc ;;
  let self := mkRS485 (sequence_counter self + 1) in
  Ok (header ++ [cmd] ++ data ++ crc_bytes, self).

Definition rs485_encode_magtemp (self : RS485Encoder)
  (packet : MagnetometerPacket) : result (bytes * RS485Encoder) :=
  header <- pack_le_BBH (type_value MAGTEMP) 0x05 (sequence_counter self) ;;
  temp_int <- field_word (temperature packet) ;;
  data <- pack_le_H temp_int ;;
  cmd <- byte_checked 0x05 ;;
  let crc_data := header ++ [cmd] ++ data in
  let crc := _calculate_crc16 crc_data in
  crc_bytes <- pack_le_H crc ;;
  let self := mkRS485 (sequence_counter self + 1) in
  Ok (header ++ [cmd] ++ data ++ crc_bytes, self).

(** *** Vocabulary *)

(** A request to the RS485 encoder: a temperature frame or a data frame
    of a packet. *)
Inductive Request : Type :=
| Data (p : MagnetometerPacket)
| Temp (p : MagnetometerPacket).

Definition request_packet (r : Request) : MagnetometerPacket :=
  match r with Data p | Temp p => p end.

Definition serve (self : RS485Encoder) (r : Request)
  : result (bytes * RS485Encoder) :=
  match r with
  | Data p => rs485_encode_magdata self p
  | Temp p => rs485_encode_magtemp self p
  end.

(** A sequence of calls on one encoder: a call that raises leaves the
    encoder as it was. *)
Fixpoint serve_all (self : RS485Encoder) (rs : list Request)
  : list (result bytes) * RS485Encoder :=
  match rs with
  | [] => ([], self)
  | r :: rest =>
      match serve self r with
      | Ok (frame, self') =>
          let (out, final) := serve_all self' rest in (Ok frame :: out, final)
      | Raise e =>
          let (out, final) := serve_all self rest in (Raise e :: out, final)
      end
  end.

(** The frames of a list of results carry the sequence numbers [c],
    [c + 1], ... in their bytes 2 and 3. *)
Fixpoint numbered_from (c : Z) (results : list (result bytes)) : Prop :=
  match results with
  | [] => True
  | r :: rest =>
      (exists frame, r = Ok frame
                     /\ le_value (firstn 2 (skipn 2 frame)) = c)
      /\ numbered_from (c + 1) rest
  end.

(** The fields a request reads are numbers. *)
Definition readable (r : Request) : Prop :=
  match r with
  | Data p =>
      is_finite (x_field p) = true /\ is_finite (y_field p) = true
      /\ is_finite (z_field p) = true
  | Temp p => is_finite (temperature p) = true
  end.

(** The sample input of the module's self-test, as a packet. *)
Definition test_packet : MagnetometerPacket :=
  Eval vm_compute in
    mkPacket (Prim2SF 25000) (Prim2SF (-5000)) (Prim2SF 40000) (Prim2SF 25)
      NORMAL MAGDATA f_zero.

(** A packet whose x field is 70000 nT. *)
Definition wide_packet : MagnetometerPacket :=
  Eval vm_compute in
    mkPacket (Prim2SF 70000) (Prim2SF (-5000.9)) (Prim2SF 40000.5)
      (Prim2SF 25) NORMAL MAGDATA f_zero.

(** The ASCII digits 1 to 9, the usual check input of a CRC. *)
Definition check_input : bytes :=
  map byte_of_Z [49; 50; 51; 52; 53; 54; 55; 56; 57].

End Mag.

(** * Reaction wheel encoder ([reaction_wheel_encoder.py]) *)

Module RWA.

Inductive RWAMode : Type :=
| STANDBY
| OPERATE.

Inductive RWAStatus : Type :=
| NORMAL
| WARNING
| ERROR
| CRITICAL
| FAULT.

Definition status_value (s : RWAStatus) : Z :=
  match s with
  | NORMAL => 0x00
  | WARNING => 0x01
  | ERROR => 0x02
  | CRITICAL => 0x03
  | FAULT => 0x04
  end.

Inductive RWATelemetryType : Type :=
| HEALTH_STATUS
| SPEED_TELEMETRY
| CURRENT_TELEMETRY
| TEMPERATURE_TELEMETRY.

Definition telemetry_value (t : RWATelemetryType) : Z :=
  match t with
  | HEALTH_STATUS => 0x15
  | SPEED_TELEMETRY => 0x16
  | CURRENT_TELEMETRY => 0x17
  | TEMPERATURE_TELEMETRY => 0x18
  end.

Record RWAData : Type := mkData {
  d_wheel_speed : float;
  d_motor_current : float;
  d_temperature : float;
  d_bus_voltage : float;
  d_power_consumption : float;
  d_timestamp : float
}.

Record RWAPacket : Type := mkPacket {
  wheel_speed : float;
  motor_current : float;
  temperature : float;
  bus_voltage : float;
  power_consumption : float;
  status : RWAStatus;
  mode : RWAMode;
  telemetry_type : RWATelemetryType;
  timestamp : float
}.

Definition status_eqb (a b : RWAStatus) : bool :=
  status_value a =? status_value b.

Definition mode_eqb (a b : RWAMode) : bool :=
  match a, b with
  | STANDBY, STANDBY | OPERATE, OPERATE => true
  | _, _ => false
  end.

(** Thresholds of the source. *)
Definition f_4200 : float := Eval vm_compute in Prim2SF 4200%float.
Definition f_4000 : float := Eval vm_compute in Prim2SF 4000%float.
Definition f_9_76 : float := Eval vm_compute in Prim2SF 9.76%float.
Definition f_8 : float := Eval vm_compute in Prim2SF 8%float.
Definition f_42 : float := Eval vm_compute in Prim2SF 42%float.
Definition f_40 : float := Eval vm_compute in Prim2SF 40%float.
Definition f_19 : float := Eval vm_compute in Prim2SF 19%float.
Definition f_20 : float := Eval vm_compute in Prim2SF 20%float.
Definition f_10 : float := Eval vm_compute in Prim2SF 10%float.
Definition f_25 : float := Eval vm_compute in Prim2SF 25%float.
Definition f_28 : float := Eval vm_compute in Prim2SF 28%float.

(** *** RWAMessageEncoder *)

Record RWAMessageEncoder : Type := mkMessageEncoder {
  rwa_address : Z;
  sequence_counter : Z
}.

Definition _build_status_byte (packet : RWAPacket) : Z :=
  let status_ := 0 in
  let status_ := if status_eqb (status packet) FAULT
                 then Z.lor status_ 0x80 else status_ in
  let status_ := if mode_eqb (mode packet) STANDBY
                 then Z.lor status_ 0x01 else status_ in
  Z.land status_ 0xFF.

Definition _build_health_status_word (packet : RWAPacket) : Z :=
  let status_ := 0 in
  let status_ := if fgt (motor_current packet) f_9_76
                 then Z.lor status_ 0x01 else status_ in
  let status_ := if fgt (bus_voltage packet) f_42
                 then Z.lor status_ 0x02 else status_ in
  let status_ := if flt (bus_voltage packet) f_19
                 then Z.lor status_ 0x04 else status_ in
  let status_ := if fgt (wheel_speed packet) f_4200
                 then Z.lor status_ 0x80 else status_ in
  Z.land status_ 0xFFFF.

Definition _calculate_crc (data : bytes) : Z :=
  Z.land (fold_left (fun crc b => Z.lxor crc (Z_of_byte b)) data 0) 0xFF.

(** The header shared by the three messages: address, opcode, status
    byte and three reserved bytes. *)
Definition message_head (self : RWAMessageEncoder) (packet : RWAPacket)
  : result bytes :=
  adr <- byte_checked (rwa_address self) ;;
  oc <- byte_checked (telemetry_value (telemetry_type packet)) ;;
  status_byte <- byte_checked (_build_status_byte packet) ;;
  Ok ([adr; oc; status_byte] ++ map byte_of_Z [0x00; 0x00; 0x00]).

(** The closing of the three messages: the checksum of [message[1:]] is
    appended. *)
Definition message_close (message : bytes) : result bytes :=
  crc <- byte_checked (_calculate_crc (skipn 1 message)) ;;
  Ok (message ++ [crc]).

Definition encode_health_status (self : RWAMessageEncoder)
  (packet : RWAPacket) : result bytes :=
  message <- message_head self packet ;;
  mram_state <- byte_checked 0x01 ;;
  let message := message ++ [mram_state] in
  health_status <- pack_le_H (_build_health_status_word packet) ;;
  let message := message ++ health_status in
  reserved <- byte_checked 0x00 ;;
  let message := message ++ [reserved] in
  temp_bytes <- pack_be_f (temperature packet) ;;
  let message := message ++ temp_bytes in
  voltage_bytes <- pack_be_f (bus_voltage packet) ;;
  let message := message ++ voltage_bytes in
  power_bytes <- pack_be_f (power_consumption packet) ;;
  let message := message ++ power_bytes in
  message_close message.

Definition encode_speed_telemetry (self : RWAMessageEncoder)
  (packet : RWAPacket) : result bytes :=
  message <- message_head self packet ;;
  speed_bytes <- pack_be_f (wheel_speed packet) ;;
  let message := message ++ speed_bytes in
  message_close message.

Definition encode_current_telemetry (self : RWAMessageEncoder)
  (packet : RWAPacket) : result bytes :=
  message <- message_head self packet ;;
  current_bytes <- pack_be_f (motor_current packet) ;;
  let message := message ++ current_bytes in
  message_close message.

(** *** ReactionWheelEncoder *)

Record ReactionWheelEncoder : Type := mkEncoder {
  message_encoder : RWAMessageEncoder;
  message_counter : Z
}.

(** [ReactionWheelEncoder(rwa_address)] *)
Definition init (address : Z) : ReactionWheelEncoder :=
  mkEncoder (mkMessageEncoder address 0) 0.

Definition derive_status (packet : RWAPacket) : RWAStatus :=
  if fgt (wheel_speed packet) f_4200
     || fgt (motor_current packet) f_9_76
     || fgt (bus_voltage packet) f_42
     || flt (bus_voltage packet) f_19
  then CRITICAL
  else if fgt (wheel_speed packet) f_4000
          || fgt (motor_current packet) f_8
          || fgt (bus_voltage packet) f_40
          || flt (bus_voltage packet) f_20
  then WARNING
  else NORMAL.

Definition derive_mode (packet : RWAPacket) : RWAMode :=
  if flt (fabs (wheel_speed packet)) f_10 then STANDBY else OPERATE.

Definition with_status_mode (packet : RWAPacket) (s : RWAStatus)
  (m : RWAMode) : RWAPacket :=
  mkPacket (wheel_speed packet) (motor_current packet) (temperature packet)
    (bus_voltage packet) (power_consumption packet) s m
    (telemetry_type packet) (timestamp packet).

Definition with_telemetry_type (packet : RWAPacket) (t : RWATelemetryType)
  : RWAPacket :=
  mkPacket (wheel_speed packet) (motor_current packet) (temperature packet)
    (bus_voltage packet) (power_consumption packet) (status packet)
    (mode packet) t (timestamp packet).

Definition _update_status_and_mode (packet : RWAPacket) : RWAPacket :=
  with_status_mode packet (derive_status packet) (derive_mode packet).

Definition convert_rwa_data (self : ReactionWheelEncoder) (rwa_data : RWAData)
  : RWAPacket * ReactionWheelEncoder :=
  let packet :=
    mkPacket (d_wheel_speed rwa_data) (d_motor_current rwa_data)
      (d_temperature rwa_data) (d_bus_voltage rwa_data)
      (fabs (fmul (d_motor_current rwa_data) (d_bus_voltage rwa_data)))
      NORMAL OPERATE HEALTH_STATUS (d_timestamp rwa_data) in
  let packet := _update_status_and_mode packet in
  (packet, mkEncoder (message_encoder self) (message_counter self + 1)).

Definition convert_matlab_data (self : ReactionWheelEncoder)
  (matlab_data : list float) (w : World)
  : option RWAPacket * ReactionWheelEncoder * World :=
  match matlab_data with
  | [d0; d1; d2; d3] =>
      let (now, w) := time_time w in
      let rwa_data := mkData d0 d1 d2 d3 f_zero now in
      let (packet, self) := convert_rwa_data self rwa_data in
      (Some packet, self, w)
  | _ => (None, self, w)
  end.

Definition encode_health_status_of (self : ReactionWheelEncoder)
  (packet : RWAPacket) : result bytes :=
  encode_health_status (message_encoder self)
    (with_telemetry_type packet HEALTH_STATUS).

Definition encode_speed_telemetry_of (self : ReactionWheelEncoder)
  (packet : RWAPacket) : result bytes :=
  encode_speed_telemetry (message_encoder self)
    (with_telemetry_type packet SPEED_TELEMETRY).

Definition encode_current_telemetry_of (self : ReactionWheelEncoder)
  (packet : RWAPacket) : result bytes :=
  encode_current_telemetry (message_encoder self)
    (with_telemetry_type packet CURRENT_TELEMETRY).

(** The three pipelines [process_matlab_data_health], [..._speed] and
    [..._current], by the encoder they end in. *)
Definition process_with
  (encode : ReactionWheelEncoder -> RWAPacket -> result bytes)
  (self : ReactionWheelEncoder) (matlab_data : list float) (w : World)
  : result (option bytes) * ReactionWheelEncoder * World :=
  let '(packet, self, w) := convert_matlab_data self matlab_data w in
  match packet with
  | None => (Ok None, self, w)
  | Some p =>
      (match encode self p with
       | Ok b => Ok (Some b)
       | Raise e => Raise e
       end, self, w)
  end.

Definition process_matlab_data_health := process_with encode_health_status_of.
Definition process_matlab_data_speed := process_with encode_speed_telemetry_of.
Definition process_matlab_data_current :=
  process_with encode_current_telemetry_of.

(** *** Vocabulary *)

(** The fault bit of a status byte. *)
Definition fault_bit (b : byte) : bool := Z.testbit (Z_of_byte b) 7.

(** The exclusive or of the values of a sequence of bytes, as a receiver
    recomputes it. *)
Definition xor_bytes (l : bytes) : Z :=
  fold_right (fun b acc => Z.lxor (Z_of_byte b) acc) 0 l.

(** A nominal input: 1500 RPM, 2.5 A, 35 degrees, 28 V. *)
Definition test_data : list float :=
  Eval vm_compute in map Prim2SF [1500; 2.5; 35; 28]%float.

(** The packet of that input. *)
Definition test_packet : RWAPacket :=
  Eval vm_compute in
    mkPacket (Prim2SF 1500) (Prim2SF 2.5) (Prim2SF 35) (Prim2SF 28)
      (Prim2SF 70) NORMAL OPERATE HEALTH_STATUS f_zero.

(** An input at rest with a low bus voltage: 5 RPM, 0.5 A, 25 degrees,
    18.5 V. *)
Definition low_voltage_data : list float :=
  Eval vm_compute in map Prim2SF [5; 0.5; 25; 18.5]%float.

End RWA.

(** * Channel listeners *)

(** ** State and exceptions

    A method that mutates its object and may raise: the state is kept up
    to the point of the exception. *)

Definition ST (S A : Type) : Type := S -> result A * S.

Definition st_ret {S A : Type} (a : A) : ST S A := fun s => (Ok a, s).

Definition st_bind {S A B : Type} (m : ST S A) (k : A -> ST S B) : ST S B :=
  fun s =>
    match m s with
    | (Ok a, s') => k a s'
    | (Raise e, s') => (Raise e, s')
    end.

Definition st_get {S : Type} : ST S S := fun s => (Ok s, s).
Definition st_modify {S : Type} (f : S -> S) : ST S unit :=
  fun s => (Ok tt, f s).
Definition st_lift {S A : Type} (r : result A) : ST S A := fun s => (r, s).

Declare Scope st_scope.
Delimit Scope st_scope with st.
Notation "x <~ m ;; k" := (st_bind m (fun x => k))
  (at level 100, m at next level, right associativity) : st_scope.
Notation "m ;;; k" := (st_bind m (fun _ => k))
  (at level 100, right associativity) : st_scope.

(** [keeps inv m R]: from a state that satisfies [inv], the computation
    [m] ends, normally or by an exception, in a state that satisfies
    [inv], and a value it returns satisfies [R]. *)
Definition keeps {S A : Type} (inv : S -> Prop) (m : ST S A) (R : A -> Prop)
  : Prop :=
  forall s, inv s -> inv (m s).2 /\ forall a, (m s).1 = Ok a -> R a.

(** [d[k]] on a dict: [KeyError] on a missing key. *)
Definition dict_get {K V : Type} `{Countable K} (m : gmap K V) (k : K)
  : result V :=
  match m !! k with
  | Some v => Ok v
  | None => Raise KeyError
  end.

(** ** [struct.unpack] of a double *)

Module Wire.

(** The double with the given 64-bit pattern. *)
Definition float_of_bits64 (b : Z) : float :=
  let s := Z.testbit b 63 in
  let ebits := Z.land (Z.shiftr b 52) 0x7FF in
  let frac := Z.land b (2 ^ 52 - 1) in
  if ebits =? 0x7FF then
    if frac =? 0 then S754_infinity s else S754_nan
  else if ebits =? 0 then
    match frac with
    | Zpos m => S754_finite s m (-1074)
    | _ => S754_zero s
    end
  else
    match frac + 2 ^ 52 with
    | Zpos m => S754_finite s m (ebits - 1075)
    | _ => S754_nan
    end.

(** [struct.unpack('<d', data)[0]] and [struct.unpack('>d', data)[0]]:
    [struct.error] unless [data] has 8 bytes. *)
Definition unpack_d (big : bool) (data : bytes) : result float :=
  if (length data =? 8)%nat
  then Ok (float_of_bits64 (if big then be_value data else le_value data))
  else Raise StructError.

(** The check [float('-inf') < value < float('inf')]. *)
Definition between_infinities (value : float) : bool :=
  flt f_neg_inf value && flt value f_inf.

(** The little-endian bytes of 1.0 and of a quiet NaN. *)
Definition one_le : bytes := map byte_of_Z [0; 0; 0; 0; 0; 0; 0xF0; 0x3F].
Definition nan_le : bytes := map byte_of_Z [0; 0; 0; 0; 0; 0; 0xF8; 0x7F].

End Wire.

(** ** Endianness detector

    The class is the same in the two readers that detect endianness; they
    differ in the three scorers, which are parameters here. *)

Module Detector.

Inductive Method : Type :=
| range_analysis
| pattern_analysis
| consistency_analysis.

Record EndiannessDetection : Type := mkDetection {
  is_big_endian : bool;
  confidence : float;
  detection_method : Method;
  samples_tested : nat;
  last_updated : float
}.

(** The dict a scorer returns: ['is_big_endian'] and ['confidence']. *)
Record ScorerResult : Type := mkScore {
  score_is_big_endian : bool;
  score_confidence : float
}.

Record EndiannessDetector : Type := mkDetector {
  detection_samples : nat;
  samples_per_port : gmap nat (list bytes);
  detection_results : gmap nat EndiannessDetection
}.

(** [EndiannessDetector()] *)
Definition new : EndiannessDetector := mkDetector 50 ∅ ∅.

(** [l[-n:]] *)
Definition last_n {A : Type} (n : nat) (l : list A) : list A :=
  match n with
  | O => l
  | _ => skipn (length l - n) l
  end.

Definition f_3 : float := Eval vm_compute in Prim2SF 3%float.

Section Scorers.

(** The three scorers; each may raise. *)
Variables _detect_by_range _detect_by_pattern _detect_by_consistency
  : list bytes -> result ScorerResult.

Definition _detect_endianness (self : EndiannessDetector) (port_index : nat)
  (w : World) : result EndiannessDetection * EndiannessDetector * World :=
  let scores :=
    (samples <- dict_get (samples_per_port self) port_index ;;
     range_result <- _detect_by_range samples ;;
     pattern_result <- _detect_by_pattern samples ;;
     consistency_result <- _detect_by_consistency samples ;;
     Ok (samples, range_result, pattern_result, consistency_result))%result
  in
  match scores with
  | Raise e => (Raise e, self, w)
  | Ok (samples, range_result, pattern_result, consistency_result) =>
      let results := [range_result; pattern_result; consistency_result] in
      let big_endian_votes :=
        length (filter (fun r => score_is_big_endian r = true) results) in
      let little_endian_votes :=
        length (filter (fun r => score_is_big_endian r = false) results) in
      let total_confidence :=
        fold_left (fun acc r => fadd acc (score_confidence r)) results
          f_zero in
      let is_big := (little_endian_votes <? big_endian_votes)%nat in
      let conf := fdiv total_confidence f_3 in
      let method :=
        if fgt (score_confidence range_result)
               (score_confidence pattern_result)
           && fgt (score_confidence range_result)
                  (score_confidence consistency_result)
        then range_analysis
        else if fgt (score_confidence pattern_result)
                    (score_confidence consistency_result)
        then pattern_analysis
        else consistency_analysis in
      let (now, w) := time_time w in
      let detection := mkDetection is_big conf method (length samples) now in
      (Ok detection,
       mkDetector (detection_samples self) (samples_per_port self)
         (<[port_index := detection]> (detection_results self)),
       w)
  end.

Definition add_sample (self : EndiannessDetector) (port_index : nat)
  (data : bytes) (w : World) : result unit * EndiannessDetector * World :=
  let samples := default [] (samples_per_port self !! port_index) in
  let samples := samples ++ [data] in
  let samples :=
    if (detection_samples self <? length samples)%nat
    then last_n (detection_samples self) samples else samples in
  let self :=
    mkDetector (detection_samples self)
      (<[port_index := samples]> (samples_per_port self))
      (detection_results self) in
  if (10 <=? length samples)%nat then
    let '(r, self, w) := _detect_endianness self port_index w in
    (match r with Ok _ => Ok tt | Raise e => Raise e end, self, w)
  else (Ok tt, self, w).

End Scorers.

(** [get_detection_result] and [get_endianness] *)
Definition get_detection_result (self : EndiannessDetector) (port_index : nat)
  : option EndiannessDetection :=
  detection_results self !! port_index.

(** Scorers for examples: each finds little-endian with no confidence. *)
Definition no_opinion (samples : list bytes) : result ScorerResult :=
  Ok (mkScore false f_zero).

End Detector.

(** The latest-value vector: its twelve entries are, in the order of the
    port indices 0 to 11, the fields [prime_x], [prime_y], [prime_z],
    [redundant_x], ..., [redundant_angle_z] of [ARSData].  The chain of
    [if port_index == i] assigns entry [i] and nothing for another
    index. *)
Definition set_field (values : list float) (port_index : nat) (v : float)
  : list float :=
  <[port_index := v]> values.

Definition initial_values : list float := replicate 12 f_zero.

(** [{i: 0 for i in range(12)}] *)
Definition initial_counts : gmap nat Z :=
  list_to_map (map (fun i => (i, 0)) (seq 0 12)).

(** ** TCP reader with endianness detection
    ([installer_tcp/ars_tcp_socket_reader_endianness.py]) *)

Module TcpEndian.
Import Wire Detector.

Record ARSData : Type := mkARSData {
  values : list float;
  timestamp : float;
  port_data_count : gmap nat Z;
  endianness_info : gmap nat EndiannessDetection
}.

Record Reader : Type := mkReader {
  endianness_detector : EndiannessDetector;
  packet_buffers : gmap Z bytes;
  last_packet_times : gmap Z float;
  packet_counts : gmap Z Z;
  expected_packet_size : nat;
  latest_data : ARSData;
  world : World
}.

Definition new (w : World) : Reader :=
  mkReader Detector.new ∅ ∅ ∅ 8
    (mkARSData initial_values f_zero initial_counts ∅) w.

(** [abs(v) < 1e6 and abs(v) > 1e-6] *)
Definition reasonable (v : float) : bool :=
  flt (fabs v) f_1e6 && fgt (fabs v) f_1eneg6.

(** The decision of [_parse_float_data_with_endianness] once the sample is
    in the detector, on the verdict the detector then holds. *)
Definition parse_with (detection : option EndiannessDetection) (data : bytes)
  : option float :=
  let confident :=
    match detection with
    | Some d => fgt (confidence d) f_0_5
    | None => false
    end in
  if confident then
    match detection with
    | Some d =>
        match unpack_d (is_big_endian d) data with
        | Ok value =>
            if negb (between_infinities value) then None else Some value
        | Raise _ => None
        end
    | None => None
    end
  else
    match unpack_d false data, unpack_d true data with
    | Ok le_value, Ok be_value =>
        let le_reasonable := reasonable le_value in
        let be_reasonable := reasonable be_value in
        if le_reasonable && negb be_reasonable then Some le_value
        else if be_reasonable && negb le_reasonable then Some be_value
        else if le_reasonable && be_reasonable then Some le_value
        else Some le_value
    | _, _ => None
    end.

Section Scorers.

Variables _detect_by_range _detect_by_pattern _detect_by_consistency
  : list bytes -> result ScorerResult.

#[local] Open Scope st_scope.

Definition detector_add_sample (port_index : nat) (data : bytes)
  : ST Reader unit :=
  fun self =>
    let '(r, det, w) :=
      add_sample _detect_by_range _detect_by_pattern _detect_by_consistency
        (endianness_detector self) port_index data (world self) in
    (r, mkReader det (packet_buffers self) (last_packet_times self)
          (packet_counts self) (expected_packet_size self)
          (latest_data self) w).

Definition _parse_float_data_with_endianness (data : bytes)
  (port_index : nat) : ST Reader (option float) :=
  if negb (length data =? 8)%nat then st_ret None
  else
    detector_add_sample port_index data ;;;
    self <~ st_get ;;
    let detection :=
      get_detection_result (endianness_detector self) port_index in
    st_ret (parse_with detection data).

(** The assignments under [self.data_lock], for a parsed value. *)
Definition publish (port_index : nat) (timestamp_ : float)
  (float_value : float) : ST Reader unit :=
  st_modify (fun self =>
    let ld := latest_data self in
    mkReader (endianness_detector self) (packet_buffers self)
      (last_packet_times self) (packet_counts self)
      (expected_packet_size self)
      (mkARSData (set_field (values ld) port_index float_value) timestamp_
         (port_data_count ld) (endianness_info ld))
      (world self)) ;;;
  self <~ st_get ;;
  n <~ st_lift (dict_get (port_data_count (latest_data self)) port_index) ;;
  st_modify (fun self =>
    let ld := latest_data self in
    let info :=
      match get_detection_result (endianness_detector self) port_index with
      | Some detection => <[port_index := detection]> (endianness_info ld)
      | None => endianness_info ld
      end in
    mkReader (endianness_detector self) (packet_buffers self)
      (last_packet_times self) (packet_counts self)
      (expected_packet_size self)
      (mkARSData (values ld) (timestamp ld)
         (<[port_index := n + 1]> (port_data_count ld)) info)
      (world self)).

Definition set_buffer (port : Z) (buf : bytes) : ST Reader unit :=
  st_modify (fun self =>
    mkReader (endianness_detector self)
      (<[port := buf]> (packet_buffers self))
      (last_packet_times self) (packet_counts self)
      (expected_packet_size self) (latest_data self) (world self)).

Definition bump_packet_count (port : Z) : ST Reader unit :=
  self <~ st_get ;;
  c <~ st_lift (dict_get (packet_counts self) port) ;;
  st_modify (fun self =>
    mkReader (endianness_detector self) (packet_buffers self)
      (last_packet_times self) (<[port := c + 1]> (packet_counts self))
      (expected_packet_size self) (latest_data self) (world self)).

(** One round of the [while] loop, on the sample cut from the buffer:
    whether a value was published. *)
Definition handle_sample (packet_data : bytes) (port : Z) (port_index : nat)
  (timestamp_ : float) : ST Reader bool :=
  float_value <~ _parse_float_data_with_endianness packet_data port_index ;;
  match float_value with
  | Some v =>
      bump_packet_count port ;;;
      publish port_index timestamp_ v ;;;
      st_ret true
  | None => st_ret false
  end.

(** The [while] loop; [fuel] bounds the number of rounds. *)
Fixpoint drain (fuel : nat) (port : Z) (port_index : nat)
  (timestamp_ : float) (packets_processed : Z) : ST Reader Z :=
  match fuel with
  | O => st_ret packets_processed
  | S fuel' =>
      self <~ st_get ;;
      buf <~ st_lift (dict_get (packet_buffers self) port) ;;
      if (expected_packet_size self <=? length buf)%nat then
        let packet_data := firstn (expected_packet_size self) buf in
        set_buffer port (skipn (expected_packet_size self) buf) ;;;
        published <~ handle_sample packet_data port port_index timestamp_ ;;
        drain fuel' port port_index timestamp_
          (if published : bool then packets_processed + 1
           else packets_processed)
      else st_ret packets_processed
  end.

Definition init_port (port : Z) : ST Reader unit :=
  st_modify (fun self =>
    match packet_buffers self !! port with
    | Some _ => self
    | None =>
        mkReader (endianness_detector self)
          (<[port := []]> (packet_buffers self))
          (<[port := f_zero]> (last_packet_times self))
          (<[port := 0]> (packet_counts self))
          (expected_packet_size self) (latest_data self) (world self)
    end).

(** [_process_packet_data]: every round removes 8 bytes from the buffer,
    so the length of the buffer bounds the number of rounds. *)
Definition _process_packet_data (data : bytes) (port : Z) (port_index : nat)
  (timestamp_ : float) : ST Reader bool :=
  init_port port ;;;
  self <~ st_get ;;
  buf <~ st_lift (dict_get (packet_buffers self) port) ;;
  set_buffer port (buf ++ data) ;;;
  packets_processed <~
    drain (length (buf ++ data)) port port_index timestamp_ 0 ;;
  st_ret (0 <? packets_processed).

End Scorers.

End TcpEndian.

(** ** UDP reader with endianness detection
    ([ars_socket_reader_endianness.py]) *)

Module UdpEndian.
Import Wire Detector.

(** [abs(v) < 1000 and v == v and abs(v) != float('inf')] *)
Definition reasonable (v : float) : bool :=
  flt (fabs v) f_1000 && feq v v && fne (fabs v) f_inf.

(** The orientation the fallback picks; [None] when its bare [except]
    fires. *)
Definition fallback_orientation (data : bytes) : option bool :=
  match unpack_d false data, unpack_d true data with
  | Ok le_value, Ok be_value =>
      let le_reasonable := reasonable le_value in
      let be_reasonable := reasonable be_value in
      if le_reasonable && negb be_reasonable then Some false
      else if be_reasonable && negb le_reasonable then Some true
      else Some false
  | _, _ => None
  end.

(** The final decoding and its validation. *)
Definition decode_validated (is_big : bool) (data : bytes) : option float :=
  match unpack_d is_big data with
  | Ok value =>
      if negb (feq value value) || feq (fabs value) f_inf then None
      else Some value
  | Raise _ => None
  end.

Definition parse_with (detection : option EndiannessDetection) (data : bytes)
  : option float :=
  let confident :=
    match detection with
    | Some d => fgt (confidence d) f_0_7
    | None => false
    end in
  let orientation :=
    if confident then
      match detection with
      | Some d => Some (is_big_endian d)
      | None => None
      end
    else fallback_orientation data in
  match orientation with
  | Some is_big => decode_validated is_big data
  | None => None
  end.

Definition _parse_float_data_with_endianness
  (endianness_detector : EndiannessDetector) (data : bytes) (port_index : nat)
  : option float :=
  if negb (length data =? 8)%nat then None
  else parse_with (get_detection_result endianness_detector port_index) data.

End UdpEndian.

(** ** Vocabulary of the listeners' decoding *)

Module Decoding.
Import Wire Detector.

(** The two readings of an 8-byte sample. *)
Definition le_of (data : bytes) : float := float_of_bits64 (le_value data).
Definition be_of (data : bytes) : float := float_of_bits64 (be_value data).

(** A verdict is trusted when there is one and its confidence exceeds the
    threshold. *)
Definition trusted (threshold : float) (detection : option EndiannessDetection)
  : bool :=
  match detection with
  | Some d => fgt (confidence d) threshold
  | None => false
  end.

(** The reading the verdict names. *)
Definition by_verdict (detection : option EndiannessDetection) (data : bytes)
  : float :=
  match detection with
  | Some d => if is_big_endian d then be_of data else le_of data
  | None => le_of data
  end.

(** The reading picked without a verdict: the big-endian one when it alone
    is plausible, the little-endian one otherwise. *)
Definition pick (plausible : float -> bool) (data : bytes) : float :=
  if plausible (be_of data) && negb (plausible (le_of data))
  then be_of data else le_of data.

(** A value is passed on only when it is a number. *)
Definition validated (v : float) : option float :=
  if is_finite v then Some v else None.

(** A detector that holds, for port index 0, a big-endian verdict of
    confidence 0.6. *)
Definition verdict_0_6 : EndiannessDetection :=
  Eval vm_compute in
    mkDetection true (Prim2SF 0.6) range_analysis 10 f_zero.

Definition detector_0_6 : EndiannessDetector :=
  mkDetector 50 ∅ {[ 0%nat := verdict_0_6 ]}.

(** Eight bytes that read as a NaN in both orders. *)
Definition nan_both : bytes :=
  map byte_of_Z [0x7F; 0xF8; 0; 0; 0; 0; 0xF8; 0x7F].

(** A TCP reader whose detector holds that verdict. *)
Definition trusting_reader : TcpEndian.Reader :=
  TcpEndian.mkReader detector_0_6 ∅ ∅ ∅ 8
    (TcpEndian.mkARSData initial_values f_zero initial_counts ∅) still_world.

End Decoding.

(** ** Enhanced TCP reader ([ars_tcp_socket_reader_enhanced.py]) *)

Module Enhanced.
Import Wire.

Record QualityStats : Type := mkStats {
  total_packets_received : Z;
  valid_packets : Z;
  timing_violations : Z;
  size_violations : Z;
  parse_errors : Z;
  tcp_connection_errors : Z
}.

Record ARSData : Type := mkARSData {
  values : list float;
  timestamp : float;
  port_data_count : gmap nat Z;
  (** the ['intervals'] deque of each port index *)
  port_intervals : gmap nat (list float)
}.

Record Reader : Type := mkReader {
  packet_buffers : gmap Z bytes;
  last_packet_times : gmap Z float;
  packet_counts : gmap Z Z;
  expected_packet_size : nat;
  timing_tolerance_ms : Z;
  quality_stats : QualityStats;
  latest_data : ARSData
}.

Definition initial_intervals : gmap nat (list float) :=
  list_to_map (map (fun i => (i, [])) (seq 0 12)).

Definition new : Reader :=
  mkReader ∅ ∅ ∅ 8 15 (mkStats 0 0 0 0 0 0)
    (mkARSData initial_values f_zero initial_counts initial_intervals).

Definition f_0_01 : float := Eval vm_compute in Prim2SF 0.01%float.

Definition with_stats (f : QualityStats -> QualityStats) : ST Reader unit :=
  st_modify (fun self =>
    mkReader (packet_buffers self) (last_packet_times self)
      (packet_counts self) (expected_packet_size self)
      (timing_tolerance_ms self) (f (quality_stats self))
      (latest_data self)).

Definition with_latest (f : ARSData -> ARSData) : ST Reader unit :=
  st_modify (fun self =>
    mkReader (packet_buffers self) (last_packet_times self)
      (packet_counts self) (expected_packet_size self)
      (timing_tolerance_ms self) (quality_stats self)
      (f (latest_data self))).

Definition count_size_violation (q : QualityStats) : QualityStats :=
  mkStats (total_packets_received q) (valid_packets q) (timing_violations q)
    (size_violations q + 1) (parse_errors q) (tcp_connection_errors q).

Definition count_parse_error (q : QualityStats) : QualityStats :=
  mkStats (total_packets_received q) (valid_packets q) (timing_violations q)
    (size_violations q) (parse_errors q + 1) (tcp_connection_errors q).

Definition count_timing_violation (q : QualityStats) : QualityStats :=
  mkStats (total_packets_received q) (valid_packets q)
    (timing_violations q + 1) (size_violations q) (parse_errors q)
    (tcp_connection_errors q).

Definition count_valid (q : QualityStats) : QualityStats :=
  mkStats (total_packets_received q) (valid_packets q + 1)
    (timing_violations q) (size_violations q) (parse_errors q)
    (tcp_connection_errors q).

Definition count_received (q : QualityStats) : QualityStats :=
  mkStats (total_packets_received q + 1) (valid_packets q)
    (timing_violations q) (size_violations q) (parse_errors q)
    (tcp_connection_errors q).

#[local] Open Scope st_scope.

Definition _parse_float_data (data : bytes) (is_big_endian : bool)
  : ST Reader (option float) :=
  if negb (length data =? 8)%nat then
    with_stats count_size_violation ;;; st_ret None
  else
    match unpack_d is_big_endian data with
    | Ok value =>
        if negb (between_infinities value) then
          with_stats count_parse_error ;;; st_ret None
        else st_ret (Some value)
    | Raise _ => with_stats count_parse_error ;;; st_ret None
    end.

(** [deque.append] with [maxlen=100] *)
Definition deque_append (q : list float) (x : float) : list float :=
  skipn (length (q ++ [x]) - 100) (q ++ [x]).

Definition set_buffer (port : Z) (buf : bytes) : ST Reader unit :=
  st_modify (fun self =>
    mkReader (<[port := buf]> (packet_buffers self)) (last_packet_times self)
      (packet_counts self) (expected_packet_size self)
      (timing_tolerance_ms self) (quality_stats self) (latest_data self)).

Definition set_last_packet_time (port : Z) (t : float) : ST Reader unit :=
  st_modify (fun self =>
    mkReader (packet_buffers self) (<[port := t]> (last_packet_times self))
      (packet_counts self) (expected_packet_size self)
      (timing_tolerance_ms self) (quality_stats self) (latest_data self)).

Definition bump_packet_count (port : Z) : ST Reader unit :=
  self <~ st_get ;;
  c <~ st_lift (dict_get (packet_counts self) port) ;;
  st_modify (fun self =>
    mkReader (packet_buffers self) (last_packet_times self)
      (<[port := c + 1]> (packet_counts self)) (expected_packet_size self)
      (timing_tolerance_ms self) (quality_stats self) (latest_data self)).

(** The assignments under [self.data_lock], for a parsed value. *)
Definition publish (port : Z) (port_index : nat) (timestamp_ : float)
  (float_value : float) : ST Reader unit :=
  with_latest (fun ld =>
    mkARSData (set_field (values ld) port_index float_value) timestamp_
      (port_data_count ld) (port_intervals ld)) ;;;
  self <~ st_get ;;
  n <~ st_lift (dict_get (port_data_count (latest_data self)) port_index) ;;
  with_latest (fun ld =>
    mkARSData (values ld) (timestamp ld)
      (<[port_index := n + 1]> (port_data_count ld)) (port_intervals ld)) ;;;
  last <~ st_lift (dict_get (last_packet_times self) port) ;;
  (if fgt last f_zero then
     q <~ st_lift (dict_get (port_intervals (latest_data self)) port_index) ;;
     with_latest (fun ld =>
       mkARSData (values ld) (timestamp ld) (port_data_count ld)
         (<[port_index := deque_append q (fsub timestamp_ last)]>
            (port_intervals ld)))
   else st_ret tt) ;;;
  set_last_packet_time port timestamp_.

(** One round of the [while] loop, on the sample cut from the buffer. *)
Definition handle_sample (packet_data : bytes) (port : Z) (port_index : nat)
  (timestamp_ : float) : ST Reader bool :=
  float_value <~ _parse_float_data packet_data false ;;
  match float_value with
  | Some v =>
      with_stats count_valid ;;;
      bump_packet_count port ;;;
      publish port port_index timestamp_ v ;;;
      st_ret true
  | None => st_ret false
  end.

Fixpoint drain (fuel : nat) (port : Z) (port_index : nat)
  (timestamp_ : float) (packets_processed : Z) : ST Reader Z :=
  match fuel with
  | O => st_ret packets_processed
  | S fuel' =>
      self <~ st_get ;;
      buf <~ st_lift (dict_get (packet_buffers self) port) ;;
      if (expected_packet_size self <=? length buf)%nat then
        let packet_data := firstn (expected_packet_size self) buf in
        set_buffer port (skipn (expected_packet_size self) buf) ;;;
        published <~ handle_sample packet_data port port_index timestamp_ ;;
        drain fuel' port port_index timestamp_
          (if published : bool then packets_processed + 1
           else packets_processed)
      else st_ret packets_processed
  end.

Definition init_port (port : Z) : ST Reader unit :=
  st_modify (fun self =>
    match packet_buffers self !! port with
    | Some _ => self
    | None =>
        mkReader (<[port := []]> (packet_buffers self))
          (<[port := f_zero]> (last_packet_times self))
          (<[port := 0]> (packet_counts self))
          (expected_packet_size self) (timing_tolerance_ms self)
          (quality_stats self) (latest_data self)
    end).

(** The timing check at the head of [_process_packet_data]. *)
Definition check_timing (port : Z) (timestamp_ : float) : ST Reader unit :=
  self <~ st_get ;;
  last <~ st_lift (dict_get (last_packet_times self) port) ;;
  let time_since_last :=
    if fgt last f_zero then fsub timestamp_ last else f_zero in
  if fgt time_since_last f_zero then
    let expected_interval := f_0_01 in
    let timing_error := fabs (fsub time_since_last expected_interval) in
    if fgt timing_error
         (fdiv (float_of_Z (timing_tolerance_ms self)) f_1000)
    then with_stats count_timing_violation
    else st_ret tt
  else st_ret tt.

Definition _process_packet_data (data : bytes) (port : Z) (port_index : nat)
  (timestamp_ : float) : ST Reader bool :=
  with_stats count_received ;;;
  init_port port ;;;
  self <~ st_get ;;
  buf <~ st_lift (dict_get (packet_buffers self) port) ;;
  set_buffer port (buf ++ data) ;;;
  check_timing port timestamp_ ;;;
  packets_processed <~
    drain (length (buf ++ data)) port port_index timestamp_ 0 ;;
  st_ret (0 <? packets_processed).

(** Every entry of the latest-value vector is a number. *)
Definition all_finite (values : list float) : Prop :=
  Forall (fun v => is_finite v = true) values.

Definition finite_vector (self : Reader) : Prop :=
  all_finite (values (latest_data self)).

(** The buffers are [B] and the sample size is 8. *)
Definition buffers_are (B : gmap Z bytes) (self : Reader) : Prop :=
  packet_buffers self = B /\ expected_packet_size self = 8%nat.

(** A parsed value, when there is one, is a number. *)
Definition finite_if_some (r : option float) : Prop :=
  match r with
  | Some v => is_finite v = true
  | None => True
  end.

End Enhanced.

(** * Properties *)

(** ** Bytes and integer fields *)

Lemma Z_of_byte_range (b : byte) : 0 <= Z_of_byte b < 256.
Proof.
  unfold Z_of_byte. pose proof (Byte.to_N_bounded b) as H.
  lia.
Qed.

Lemma Z_of_byte_of_Z (z : Z) : Z_of_byte (byte_of_Z z) = z mod 256.
Proof.
  unfold Z_of_byte, byte_of_Z.
  assert (Hr : 0 <= z mod 256 < 256) by (apply Z.mod_pos_bound; lia).
  destruct (Byte.of_N (Z.to_N (z mod 256))) as [b|] eqn:E.
  - apply Byte.to_of_N in E. rewrite E. lia.
  - apply Byte.of_N_None_iff in E. lia.
Qed.

Lemma byte_of_Z_of_byte (b : byte) : byte_of_Z (Z_of_byte b) = b.
Proof.
  unfold byte_of_Z. pose proof (Z_of_byte_range b) as H.
  rewrite Z.mod_small by lia. unfold Z_of_byte. rewrite N2Z.id.
  now rewrite Byte.of_to_N.
Qed.

Lemma length_le_bytes (n : nat) (z : Z) : length (le_bytes n z) = n.
Proof. revert z. induction n as [|n IH]; intros z; simpl; auto. Qed.

Lemma le_value_range (l : bytes) :
  0 <= le_value l < 2 ^ (8 * Z.of_nat (length l)).
Proof.
  induction l as [|b t IH].
  - simpl. lia.
  - cbn [le_value length]. pose proof (Z_of_byte_range b) as Hb.
    replace (8 * Z.of_nat (S (length t))) with (8 + 8 * Z.of_nat (length t))
      by lia.
    rewrite Z.pow_add_r by lia. change (2 ^ 8) with 256. lia.
Qed.

Lemma le_value_le_bytes (n : nat) (z : Z) :
  le_value (le_bytes n z) = z mod 2 ^ (8 * Z.of_nat n).
Proof.
  revert z. induction n as [|n IH]; intros z.
  - simpl. now rewrite Z.mod_1_r.
  - cbn [le_bytes le_value]. rewrite IH, Z_of_byte_of_Z.
    replace (8 * Z.of_nat (S n)) with (8 + 8 * Z.of_nat n) by lia.
    rewrite Z.pow_add_r by lia. change (2 ^ 8) with 256.
    rewrite (Z.rem_mul_r z 256 (2 ^ (8 * Z.of_nat n))) by lia.
    reflexivity.
Qed.

Lemma le_value_app (a b : bytes) :
  le_value (a ++ b) = le_value a + 2 ^ (8 * Z.of_nat (length a)) * le_value b.
Proof.
  induction a as [|x a IH].
  - simpl. lia.
  - cbn [app le_value length]. rewrite IH.
    replace (8 * Z.of_nat (S (length a))) with (8 + 8 * Z.of_nat (length a))
      by lia.
    rewrite Z.pow_add_r by lia. change (2 ^ 8) with 256. ring.
Qed.

Lemma sum_bytes_app (a b : bytes) :
  sum_bytes (a ++ b) = sum_bytes a + sum_bytes b.
Proof.
  unfold sum_bytes. induction a as [|x a IH]; simpl; [reflexivity | lia].
Qed.

Lemma pack_uint_ok (big : bool) (n : nat) (v : Z) :
  0 <= v < 2 ^ (8 * Z.of_nat n) ->
  pack_uint big n v = Ok (if big then be_bytes n v else le_bytes n v).
Proof.
  intros H. unfold pack_uint.
  destruct (Z.leb_spec 0 v); destruct (Z.ltb_spec v (2 ^ (8 * Z.of_nat n)));
    simpl; try reflexivity; lia.
Qed.

Lemma pack_uint_inv (big : bool) (n : nat) (v : Z) (b : bytes) :
  pack_uint big n v = Ok b ->
  0 <= v < 2 ^ (8 * Z.of_nat n)
  /\ b = (if big then be_bytes n v else le_bytes n v).
Proof.
  unfold pack_uint.
  destruct (Z.leb_spec 0 v); destruct (Z.ltb_spec v (2 ^ (8 * Z.of_nat n)));
    simpl; intros E; inversion E; subst; auto.
Qed.

Lemma pack_sint_ok (big : bool) (n : nat) (v : Z) :
  - 2 ^ (8 * Z.of_nat n - 1) <= v < 2 ^ (8 * Z.of_nat n - 1) ->
  pack_sint big n v = Ok (if big then be_bytes n v else le_bytes n v).
Proof.
  intros H. unfold pack_sint.
  destruct (Z.leb_spec (- 2 ^ (8 * Z.of_nat n - 1)) v);
    destruct (Z.ltb_spec v (2 ^ (8 * Z.of_nat n - 1)));
    simpl; try reflexivity; lia.
Qed.

(** Inversion of a successful sequence of fallible steps. *)
Lemma rbind_ok {A B : Type} (r : result A) (k : A -> result B) (b : B) :
  rbind r k = Ok b -> exists a, r = Ok a /\ k a = Ok b.
Proof. destruct r as [a | e]; [eauto | discriminate]. Qed.

Ltac rbind_inv H :=
  repeat match type of H with
         | rbind _ _ = Ok _ =>
             let a := fresh "a" in
             let E := fresh "E" in
             apply rbind_ok in H; destruct H as (a & E & H)
         end.

(** ** Order of the floats *)

Ltac split_compares :=
  repeat match goal with
         | |- context [Z.compare ?a ?b] => destruct (Z.compare_spec a b)
         | |- context [PosDef.Pos.compare_cont Eq ?a ?b] =>
             change (PosDef.Pos.compare_cont Eq a b) with (Pos.compare a b);
             destruct (Pos.compare_spec a b)
         end.

(** The built-in [max] of two floats exceeds a bound exactly when one of
    them does, as long as no NaN is involved. *)
Lemma gt_py_max (x y t : float) :
  is_nan x = false -> is_nan y = false -> is_nan t = false ->
  fgt (py_max x y) t = fgt x t || fgt y t.
Proof.
  unfold py_max, fgt, SFltb.
  destruct x as [sx | sx | | sx mx ex], y as [sy | sy | | sy my ey],
    t as [st | st | | st mt et]; try discriminate; intros _ _ _;
    cbn; repeat match goal with s : bool |- _ => destruct s end; cbn;
    try reflexivity;
    split_compares; cbn; subst; split_compares; cbn;
    first [reflexivity | exfalso; lia].
Qed.

Lemma py_max_not_nan (x y : float) :
  is_nan x = false -> is_nan y = false -> is_nan (py_max x y) = false.
Proof. unfold py_max. destruct (fgt y x); auto. Qed.

Lemma gt_py_max3 (x y z t : float) :
  is_nan x = false -> is_nan y = false -> is_nan z = false ->
  is_nan t = false ->
  fgt (py_max3 x y z) t = fgt x t || fgt y t || fgt z t.
Proof.
  intros Hx Hy Hz Ht. unfold py_max3.
  rewrite gt_py_max by auto using py_max_not_nan.
  now rewrite gt_py_max by auto.
Qed.

Lemma fne_zero (x : float) : fne x f_zero = negb (is_zero x).
Proof. destruct x as [s | s | | s m e]; try destruct s; reflexivity. Qed.

(** [int] of a finite float is the truncation toward zero of its exact
    value. *)
Lemma py_int_trunc (x : float) :
  is_finite x = true ->
  exists k, py_int x = Ok k /\ trunc_float x = Some k.
Proof.
  destruct x as [s | s | | s m e]; try discriminate; intros _.
  - exists 0. split; reflexivity.
  - exists (cond_Zopp s (Z.shiftl (Zpos m) e)). split; [reflexivity|].
    unfold trunc_float, fraction_of.
    destruct (Z.leb_spec 0 e) as [He | He]; f_equal.
    + rewrite Z.quot_1_r, Z.shiftl_mul_pow2 by lia. reflexivity.
    + rewrite <- (Z.opp_involutive e) at 2.
      rewrite Z.shiftl_opp_r, Z.shiftr_div_pow2 by lia.
      assert (Hp : 0 < 2 ^ (- e)) by (apply Z.pow_pos_nonneg; lia).
      destruct s; cbn [cond_Zopp].
      * rewrite Z.quot_opp_l by lia.
        rewrite Z.quot_div_nonneg by lia. reflexivity.
      * rewrite Z.quot_div_nonneg by lia. reflexivity.
Qed.

Lemma trunc_float_finite (x : float) (k : Z) :
  trunc_float x = Some k -> is_finite x = true.
Proof. destruct x; try discriminate; reflexivity. Qed.

Lemma py_int_of_trunc (x : float) (k : Z) :
  trunc_float x = Some k -> py_int x = Ok k.
Proof.
  intros H. destruct (py_int_trunc x (trunc_float_finite x k H)) as (k' & Hi & Ht).
  congruence.
Qed.

Lemma be_value_be_bytes (n : nat) (z : Z) :
  be_value (be_bytes n z) = z mod 2 ^ (8 * Z.of_nat n).
Proof.
  unfold be_value, be_bytes. rewrite rev_involutive. apply le_value_le_bytes.
Qed.

(** ** Rate sensor encoder *)

Module ARSFacts.
Import ARS.

(** A fixed-point field is always produced, whatever the float: it holds
    a value of the range, in [n] little-endian bytes. *)
Lemma encode_fixed_total (scale : float) (n : nat) (lo hi : Z) (v : float) :
  - 2 ^ (8 * Z.of_nat n - 1) <= lo -> lo <= 0 -> 0 <= hi ->
  hi < 2 ^ (8 * Z.of_nat n - 1) ->
  exists k, lo <= k <= hi /\ encode_fixed scale n lo hi v = Ok (le_bytes n k).
Proof.
  intros Hlo Hlo0 Hhi0 Hhi. unfold encode_fixed.
  set (v' := limit_extreme v).
  assert (Hz : pack_sint false n 0 = Ok (le_bytes n 0))
    by (apply (pack_sint_ok false); lia).
  assert (Hk : forall k, pack_sint false n (Z.max lo (Z.min hi k))
                         = Ok (le_bytes n (Z.max lo (Z.min hi k))))
    by (intros k; apply (pack_sint_ok false); lia).
  destruct (py_int (fdiv v' scale)) as [k|e] eqn:E; cbn [rbind try_except].
  - rewrite Hk. cbn. exists (Z.max lo (Z.min hi k)). split; [lia | reflexivity].
  - destruct e; cbn [rbind try_except];
      try (rewrite Hz; exists 0; split; [lia | reflexivity]).
    rewrite Hk. cbn.
    exists (Z.max lo (Z.min hi (if fgt v' f_zero then hi else lo))).
    split; [lia | reflexivity].
Qed.

Lemma encode_angular_rate_total (v : float) :
  exists k, -32768 <= k <= 32767 /\ encode_angular_rate v = Ok (le_bytes 2 k).
Proof. apply encode_fixed_total; simpl; lia. Qed.

Lemma encode_angle_total (v : float) :
  exists k, -2147483648 <= k <= 2147483647
            /\ encode_angle v = Ok (le_bytes 4 k).
Proof. apply encode_fixed_total; simpl; lia. Qed.

Lemma land_FFFF (x : Z) : Z.land x 0xFFFF = x mod 65536.
Proof. change 0xFFFF with (Z.ones 16). now rewrite Z.land_ones by lia. Qed.

Lemma land_FFFF_range (x : Z) : 0 <= Z.land x 0xFFFF < 65536.
Proof. rewrite land_FFFF. apply Z.mod_pos_bound. lia. Qed.

Lemma length_frame_of rx ry rz s1 s2 s3 ax ay az ck :
  length (frame_of rx ry rz s1 s2 s3 ax ay az ck) = 27%nat.
Proof.
  unfold frame_of, frame_body. cbn [length].
  repeat rewrite length_app. repeat rewrite length_le_bytes. lia.
Qed.

(** What [encode_message] computes, on any packet. *)
Lemma encode_message_eq (p : RateSensorPacket) :
  exists rx ry rz ax ay az,
    int16 rx /\ int16 ry /\ int16 rz /\ int32 ax /\ int32 ay /\ int32 az
    /\ encode_angular_rate (angular_rate_x p) = Ok (le_bytes 2 rx)
    /\ encode_angular_rate (angular_rate_y p) = Ok (le_bytes 2 ry)
    /\ encode_angular_rate (angular_rate_z p) = Ok (le_bytes 2 rz)
    /\ encode_angle (summed_angle_x p) = Ok (le_bytes 4 ax)
    /\ encode_angle (summed_angle_y p) = Ok (le_bytes 4 ay)
    /\ encode_angle (summed_angle_z p) = Ok (le_bytes 4 az)
    /\ encode_message p =
       if (0 <=? status_word_1 p) && (status_word_1 p <? 65536)
          && ((0 <=? status_word_2 p) && (status_word_2 p <? 65536))
          && ((0 <=? status_word_3 p) && (status_word_3 p <? 65536))
       then
         let body := frame_body rx ry rz (status_word_1 p) (status_word_2 p)
                       (status_word_3 p) ax ay az in
         Ok (frame_of rx ry rz (status_word_1 p) (status_word_2 p)
               (status_word_3 p) ax ay az (sum_bytes body mod 65536))
       else Raise StructError.
Proof.
  destruct (encode_angular_rate_total (angular_rate_x p)) as (rx & Hrx & Ex).
  destruct (encode_angular_rate_total (angular_rate_y p)) as (ry & Hry & Ey).
  destruct (encode_angular_rate_total (angular_rate_z p)) as (rz & Hrz & Ez).
  destruct (encode_angle_total (summed_angle_x p)) as (ax & Hax & Eax).
  destruct (encode_angle_total (summed_angle_y p)) as (ay & Hay & Eay).
  destruct (encode_angle_total (summed_angle_z p)) as (az & Haz & Eaz).
  exists rx, ry, rz, ax, ay, az.
  repeat (split; [assumption|]).
  unfold encode_message. rewrite Ex, Ey, Ez, Eax, Eay, Eaz. cbn [rbind].
  unfold pack_le_H, pack_uint.
  change (2 ^ (8 * Z.of_nat 2)) with 65536.
  destruct ((0 <=? status_word_1 p) && (status_word_1 p <? 65536));
    cbn [rbind andb]; [|reflexivity].
  destruct ((0 <=? status_word_2 p) && (status_word_2 p <? 65536));
    cbn [rbind andb]; [|reflexivity].
  destruct ((0 <=? status_word_3 p) && (status_word_3 p <? 65536));
    cbn [rbind andb]; [|reflexivity].
  rewrite land_FFFF.
  match goal with
  | |- context [sum_bytes ?b mod 65536] =>
      pose proof (Z.mod_pos_bound (sum_bytes b) 65536 ltac:(lia)) as Hck
  end.
  match type of Hck with
  | 0 <= ?c < _ =>
      destruct (Z.leb_spec 0 c); destruct (Z.ltb_spec c 65536); try lia
  end.
  cbn [andb rbind]. unfold frame_of, frame_body.
  repeat rewrite <- app_assoc. reflexivity.
Qed.

Lemma build_status_word_1_range c m a b d :
  uint16 (build_status_word_1 c m a b d).
Proof. apply land_FFFF_range. Qed.

Lemma build_status_word_2_range t a b c d :
  uint16 (build_status_word_2 t a b c d).
Proof. apply land_FFFF_range. Qed.

Lemma build_status_word_3_range a b c d e f g h :
  uint16 (build_status_word_3 a b c d e f g h).
Proof. apply land_FFFF_range. Qed.

(** The packet [convert_ars_data] builds. *)
Lemma convert_ars_data_packet (self : ARSEncoder) (d : ARSData) (w : World) :
  (convert_ars_data self d w).1.1 =
  mkPacket (prime_x d) (prime_y d) (prime_z d)
    (build_status_word_1 (message_counter self mod 4) 1
       (negb (has_data_of d)) (has_discrepancy_of d) false)
    (build_status_word_2 25 false false false false)
    (build_status_word_3 (has_data_of d) (has_data_of d) (has_data_of d)
       (has_discrepancy_of d) (has_discrepancy_of d) (has_discrepancy_of d)
       (has_discrepancy_of d) (has_data_of d && negb (has_discrepancy_of d)))
    (prime_angle_x d) (prime_angle_y d) (prime_angle_z d)
    (ars_timestamp d) (message_counter self).
Proof. reflexivity. Qed.

Lemma convert_ars_data_counter (self : ARSEncoder) (d : ARSData) (w : World) :
  message_counter (convert_ars_data self d w).1.2 = message_counter self + 1.
Proof. reflexivity. Qed.

Lemma convert_ars_data_words (self : ARSEncoder) (d : ARSData) (w : World) :
  let p := (convert_ars_data self d w).1.1 in
  uint16 (status_word_1 p) /\ uint16 (status_word_2 p)
  /\ uint16 (status_word_3 p).
Proof.
  rewrite convert_ars_data_packet. cbn [status_word_1 status_word_2 status_word_3].
  auto using build_status_word_1_range, build_status_word_2_range,
    build_status_word_3_range.
Qed.

Lemma some_packet_of (X : RateSensorPacket * ARSEncoder * World) :
  (let '(p, self, w) := X in (Some p, self, w)).1.1 = Some X.1.1.
Proof. destruct X as [[p s] w]. reflexivity. Qed.

Lemma convert_matlab_data_accepted (self : ARSEncoder) (data : list float)
  (w : World) :
  accepted self data ->
  exists d w1, (convert_matlab_data self data w).1.1
               = Some (convert_ars_data self d w1).1.1.
Proof.
  intros [H | [H Hdup]].
  - do 13 (destruct data as [|? data]; try discriminate H).
    unfold convert_matlab_data.
    destruct (time_time w) as [now w1] eqn:Et.
    rewrite some_packet_of. eexists _, _. reflexivity.
  - do 7 (destruct data as [|? data]; try discriminate H).
    unfold convert_matlab_data. rewrite Hdup.
    repeat match goal with
           | |- context [_add_variation ?s ?v ?w] =>
               destruct (_add_variation s v w) as [? ?]
           end.
    match goal with
    | |- context [time_time ?w] => destruct (time_time w) as [now wt]
    end.
    rewrite some_packet_of. eexists _, _. reflexivity.
Qed.

Lemma process_matlab_data_eq (self : ARSEncoder) (data : list float)
  (w : World) :
  (process_matlab_data self data w).1.1 =
  match (convert_matlab_data self data w).1.1 with
  | None => Ok None
  | Some p =>
      match encode_message p with
      | Ok b => Ok (Some b)
      | Raise e => Raise e
      end
  end.
Proof.
  unfold process_matlab_data, encode_packet.
  destruct (convert_matlab_data self data w) as [[[p|] s'] w']; reflexivity.
Qed.

Lemma status_words_fit (p : RateSensorPacket) :
  uint16 (status_word_1 p) -> uint16 (status_word_2 p) ->
  uint16 (status_word_3 p) ->
  (0 <=? status_word_1 p) && (status_word_1 p <? 65536)
  && ((0 <=? status_word_2 p) && (status_word_2 p <? 65536))
  && ((0 <=? status_word_3 p) && (status_word_3 p <? 65536)) = true.
Proof.
  unfold uint16. intros H1 H2 H3.
  repeat (apply andb_true_intro; split);
    first [apply Z.leb_le | apply Z.ltb_lt]; lia.
Qed.

(** Every accepted input yields a frame of 27 bytes. *)
Lemma accepted_frame_length (self : ARSEncoder) (data : list float)
  (w : World) :
  accepted self data ->
  exists frame,
    (process_matlab_data self data w).1.1 = Ok (Some frame)
    /\ length frame = 27%nat.
Proof.
  intros Hacc.
  destruct (convert_matlab_data_accepted self data w Hacc) as (d & w1 & Hc).
  pose proof (convert_ars_data_words self d w1) as (H1 & H2 & H3).
  destruct (encode_message_eq (convert_ars_data self d w1).1.1)
    as (rx & ry & rz & ax & ay & az & _ & _ & _ & _ & _ & _
        & _ & _ & _ & _ & _ & _ & He).
  rewrite status_words_fit in He by assumption.
  eexists. rewrite process_matlab_data_eq, Hc, He.
  split; [reflexivity | apply length_frame_of].
Qed.

(** C1, as the code has it: every accepted input yields a frame, and the
    frame is 27 bytes long: the sync byte, three 2-byte rates, the three
    2-byte status words of the packet, three 4-byte angles and the 2-byte
    checksum, every field in little-endian byte order. *)
Theorem rate_frame_layout (self : ARSEncoder) (data : list float) (w : World) :
  accepted self data ->
  exists p rx ry rz ax ay az frame,
    (convert_matlab_data self data w).1.1 = Some p
    /\ (process_matlab_data self data w).1.1 = Ok (Some frame)
    /\ length frame = 27%nat
    /\ frame = frame_of rx ry rz (status_word_1 p) (status_word_2 p)
                 (status_word_3 p) ax ay az
                 (sum_bytes (frame_body rx ry rz (status_word_1 p)
                               (status_word_2 p) (status_word_3 p) ax ay az)
                  mod 65536)
    /\ int16 rx /\ int16 ry /\ int16 rz
    /\ uint16 (status_word_1 p) /\ uint16 (status_word_2 p)
    /\ uint16 (status_word_3 p)
    /\ int32 ax /\ int32 ay /\ int32 az.
Proof.
  intros Hacc.
  destruct (convert_matlab_data_accepted self data w Hacc) as (d & w1 & Hc).
  pose proof (convert_ars_data_words self d w1) as (H1 & H2 & H3).
  set (p := (convert_ars_data self d w1).1.1) in *.
  destruct (encode_message_eq p)
    as (rx & ry & rz & ax & ay & az & Hrx & Hry & Hrz & Hax & Hay & Haz
        & _ & _ & _ & _ & _ & _ & He).
  exists p, rx, ry, rz, ax, ay, az. eexists.
  rewrite process_matlab_data_eq, Hc, He.
  rewrite status_words_fit by assumption.
  split; [reflexivity|]. split; [reflexivity|].
  split; [apply length_frame_of|]. split; [reflexivity|].
  repeat (split; [assumption|]). assumption.
Qed.

Lemma rate_frame_layout_witness :
  exists p rx ry rz ax ay az frame,
    (convert_matlab_data (init false f_0_1) test_data still_world).1.1 = Some p
    /\ (process_matlab_data (init false f_0_1) test_data still_world).1.1
       = Ok (Some frame)
    /\ length frame = 27%nat
    /\ frame = frame_of rx ry rz (status_word_1 p) (status_word_2 p)
                 (status_word_3 p) ax ay az
                 (sum_bytes (frame_body rx ry rz (status_word_1 p)
                               (status_word_2 p) (status_word_3 p) ax ay az)
                  mod 65536)
    /\ int16 rx /\ int16 ry /\ int16 rz
    /\ uint16 (status_word_1 p) /\ uint16 (status_word_2 p)
    /\ uint16 (status_word_3 p)
    /\ int32 ax /\ int32 ay /\ int32 az.
Proof.
  apply (rate_frame_layout (init false f_0_1) test_data still_world).
  left. reflexivity.
Defined.

(** C1 as stated fails: the frame of the self-test input has 27 bytes,
    not 23. *)
Lemma rate_frame_not_23_bytes :
  exists frame,
    (process_matlab_data (init false f_0_1) test_data still_world).1.1
    = Ok (Some frame)
    /\ length frame = 27%nat /\ length frame <> 23%nat.
Proof.
  eexists. split; [vm_compute; reflexivity|]. split; [reflexivity|].
  discriminate.
Qed.

Lemma length_frame_body rx ry rz s1 s2 s3 ax ay az :
  length (frame_body rx ry rz s1 s2 s3 ax ay az) = 24%nat.
Proof.
  unfold frame_body.
  repeat rewrite length_app. repeat rewrite length_le_bytes. lia.
Qed.

Lemma encode_message_inv (p : RateSensorPacket) (frame : bytes) :
  encode_message p = Ok frame ->
  exists body, length body = 24%nat
    /\ frame = SYNC :: body ++ le_bytes 2 (sum_bytes body mod 65536).
Proof.
  destruct (encode_message_eq p)
    as (rx & ry & rz & ax & ay & az & _ & _ & _ & _ & _ & _
        & _ & _ & _ & _ & _ & _ & He).
  rewrite He. clear He.
  destruct (_ && _); [|discriminate].
  intros E. inversion E. subst frame.
  eexists. split; [apply length_frame_body | reflexivity].
Qed.

(** C3: in every frame the encoder produces, the bytes after the sync byte
    and before the last two sum, modulo 65536, to the little-endian value
    of the last two bytes. *)
Theorem rate_frame_checksum (p : RateSensorPacket) (frame : bytes) :
  encode_message p = Ok frame ->
  sum_bytes (firstn (length frame - 3) (skipn 1 frame)) mod 65536
  = le_value (skipn (length frame - 2) frame).
Proof.
  intros E. destruct (encode_message_inv p frame E) as (body & Hlen & ->).
  set (ck := le_bytes 2 (sum_bytes body mod 65536)).
  assert (Hl : length (SYNC :: body ++ ck) = 27%nat)
    by (cbn [length]; rewrite length_app, Hlen; reflexivity).
  rewrite Hl. change (27 - 3)%nat with 24%nat.
  change (27 - 2)%nat with (S 24). cbn [skipn].
  rewrite drop_0, <- Hlen, take_app_length, drop_app_length.
  unfold ck. rewrite le_value_le_bytes.
  change (2 ^ (8 * Z.of_nat 2)) with 65536.
  now rewrite Z.mod_mod by lia.
Qed.

Lemma rate_frame_checksum_witness :
  exists frame,
    encode_message (mkPacket f_0_1 f_0_5 f_1 16 25 0x8700 f_1 f_0_5 f_0_1
                      f_zero 0) = Ok frame
    /\ sum_bytes (firstn (length frame - 3) (skipn 1 frame)) mod 65536
       = le_value (skipn (length frame - 2) frame).
Proof.
  eexists. split; [vm_compute; reflexivity|].
  apply (rate_frame_checksum
           (mkPacket f_0_1 f_0_5 f_1 16 25 0x8700 f_1 f_0_5 f_0_1 f_zero 0)).
  vm_compute. reflexivity.
Defined.

(** *** Fixed-point conversion *)

Lemma clamp_saturate (lo hi k : Z) :
  lo <= hi -> Z.max lo (Z.min hi k) = saturate lo hi k.
Proof.
  intros H. unfold saturate.
  destruct (Z.ltb_spec k lo); [lia|]. destruct (Z.ltb_spec hi k); lia.
Qed.

Lemma saturate_range (lo hi k : Z) :
  lo <= hi -> lo <= saturate lo hi k <= hi.
Proof.
  intros H. unfold saturate.
  destruct (Z.ltb_spec k lo); [lia|]. destruct (Z.ltb_spec hi k); lia.
Qed.

(** Rounding keeps the sign it is given. *)
Lemma binary_round_aux_infinity (sx : bool) (mx ex : Z) (lx : location)
  (s : bool) :
  binary_round_aux prec emax sx mx ex lx = S754_infinity s -> s = sx.
Proof.
  unfold binary_round_aux.
  destruct (shr_fexp prec emax mx ex lx) as [mrs' e'].
  destruct (shr_fexp prec emax _ e' loc_Exact) as [mrs'' e''].
  destruct (shr_m mrs''); try discriminate.
  destruct (e'' <=? emax - prec)%Z; [discriminate|].
  intros E. now inversion E.
Qed.

(** When a quotient by a positive finite scale is infinite, its sign is
    the sign of the dividend, which [v > 0] tests. *)
Lemma quotient_infinity_sign (v : float) (ms : positive) (es : Z) (s : bool) :
  fdiv v (S754_finite false ms es) = S754_infinity s ->
  fgt v f_zero = negb s.
Proof.
  destruct v as [sv | sv | | sv mv ev]; cbn; try discriminate.
  - rewrite xorb_false_r. intros E. inversion E. now destruct s.
  - unfold fdiv, SFdiv.
    destruct (SFdiv_core_binary prec emax (Z.pos mv) ev (Z.pos ms) es)
      as [[mz ez] lz].
    rewrite xorb_false_r. intros E.
    apply binary_round_aux_infinity in E. subst s. now destruct sv.
Qed.

(** The shared converter writes the saturating truncation of the float
    quotient, whatever the input. *)
Lemma encode_fixed_eq (ms : positive) (es : Z) (n : nat) (lo hi : Z)
  (v : float) :
  - 2 ^ (8 * Z.of_nat n - 1) <= lo -> lo <= 0 -> 0 <= hi ->
  hi < 2 ^ (8 * Z.of_nat n - 1) ->
  encode_fixed (S754_finite false ms es) n lo hi v
  = Ok (le_bytes n
          (sat_trunc lo hi (fdiv (limit_extreme v) (S754_finite false ms es)))).
Proof.
  intros Hlo Hlo0 Hhi0 Hhi. unfold encode_fixed.
  set (v' := limit_extreme v).
  assert (Hz : pack_sint false n 0 = Ok (le_bytes n 0))
    by (apply (pack_sint_ok false); lia).
  assert (Hk : forall k, pack_sint false n (saturate lo hi k)
                         = Ok (le_bytes n (saturate lo hi k))).
  { intros k. pose proof (saturate_range lo hi k ltac:(lia)).
    apply (pack_sint_ok false). lia. }
  destruct (fdiv v' (S754_finite false ms es)) as [sq | sq | | sq mq eq] eqn:Eq.
  - cbn [py_int rbind try_except]. rewrite clamp_saturate by lia.
    rewrite Hk. reflexivity.
  - cbn [py_int rbind try_except].
    rewrite (quotient_infinity_sign _ _ _ _ Eq).
    rewrite clamp_saturate by lia. rewrite Hk. cbn.
    do 2 f_equal. unfold saturate.
    destruct sq; cbn [negb].
    + destruct (Z.ltb_spec lo lo); [lia|]. destruct (Z.ltb_spec hi lo); lia.
    + destruct (Z.ltb_spec hi lo); [lia|]. destruct (Z.ltb_spec hi hi); lia.
  - cbn. apply Hz.
  - destruct (py_int_trunc (S754_finite sq mq eq) eq_refl) as (k & Hi & Ht).
    rewrite Hi. cbn [rbind try_except]. rewrite clamp_saturate by lia.
    rewrite Hk. cbn [try_except sat_trunc]. rewrite Ht. reflexivity.
Qed.

(** A signed field reads back as the value that was written. *)
Lemma signed_le_bytes (n : nat) (k : Z) :
  (0 < n)%nat ->
  - 2 ^ (8 * Z.of_nat n - 1) <= k < 2 ^ (8 * Z.of_nat n - 1) ->
  signed (8 * Z.of_nat n) (le_value (le_bytes n k)) = k.
Proof.
  intros Hn Hk. rewrite le_value_le_bytes. unfold signed.
  set (w := 8 * Z.of_nat n) in *.
  assert (Hw : 2 ^ w = 2 * 2 ^ (w - 1)).
  { replace w with (1 + (w - 1)) at 1 by lia.
    rewrite Z.pow_add_r by lia. reflexivity. }
  assert (Hp : 0 < 2 ^ (w - 1)) by (apply Z.pow_pos_nonneg; lia).
  destruct (Z.lt_ge_cases k 0) as [Hneg | Hpos].
  - replace (k mod 2 ^ w) with (k + 2 ^ w).
    + destruct (Z.ltb_spec (k + 2 ^ w) (2 ^ (w - 1))); lia.
    + symmetry. rewrite <- (Z.mod_add k 1 (2 ^ w)) by lia.
      rewrite Z.mul_1_l. apply Z.mod_small. lia.
  - rewrite Z.mod_small by lia.
    destruct (Z.ltb_spec k (2 ^ (w - 1))); lia.
Qed.

Lemma encode_angular_rate_eq (v : float) :
  encode_angular_rate v
  = Ok (le_bytes 2 (sat_trunc (-32768) 32767
                      (fdiv (limit_extreme v) ANGULAR_RATE_SCALE))).
Proof.
  unfold encode_angular_rate, ANGULAR_RATE_SCALE.
  apply encode_fixed_eq; simpl; lia.
Qed.

Lemma encode_angle_eq (v : float) :
  encode_angle v
  = Ok (le_bytes 4 (sat_trunc (-2147483648) 2147483647
                      (fdiv (limit_extreme v) ANGLE_SCALE))).
Proof.
  unfold encode_angle, ANGLE_SCALE.
  apply encode_fixed_eq; simpl; lia.
Qed.

Lemma sat_trunc_range (lo hi : Z) (q : float) :
  lo <= 0 <= hi -> lo <= sat_trunc lo hi q <= hi.
Proof.
  intros H. unfold sat_trunc.
  destruct q as [s | s | | s m e]; try lia.
  - destruct (trunc_float _); [apply saturate_range|]; lia.
  - destruct s; lia.
  - destruct (trunc_float _); [apply saturate_range|]; lia.
Qed.

(** C2, as the code has it: for every finite rate the 16-bit field, read
    back as a signed little-endian number, is the truncation toward zero
    (not the rounding) of the double quotient by [600 * 2^-23], saturated
    to the signed 16-bit range; the same holds for an angle with [2^-27]
    and 32 bits.  The value is limited to plus or minus [1e6] before the
    division, which leaves every value of at most that magnitude as it
    is. *)
Theorem fixed_point_fields (v : float) :
  is_finite v = true ->
  exists br ba,
    encode_angular_rate v = Ok br /\ length br = 2%nat
    /\ signed 16 (le_value br)
       = sat_trunc (-32768) 32767 (fdiv (limit_extreme v) ANGULAR_RATE_SCALE)
    /\ encode_angle v = Ok ba /\ length ba = 4%nat
    /\ signed 32 (le_value ba)
       = sat_trunc (-2147483648) 2147483647
           (fdiv (limit_extreme v) ANGLE_SCALE)
    /\ (fgt (fabs v) f_1e6 = false -> limit_extreme v = v).
Proof.
  intros _. eexists _, _.
  split; [apply encode_angular_rate_eq|].
  split; [apply length_le_bytes|].
  split.
  { pose proof (sat_trunc_range (-32768) 32767
                  (fdiv (limit_extreme v) ANGULAR_RATE_SCALE) ltac:(lia)).
    apply (signed_le_bytes 2); [lia | simpl; lia]. }
  split; [apply encode_angle_eq|].
  split; [apply length_le_bytes|].
  split.
  { pose proof (sat_trunc_range (-2147483648) 2147483647
                  (fdiv (limit_extreme v) ANGLE_SCALE) ltac:(lia)).
    apply (signed_le_bytes 4); [lia | simpl; lia]. }
  intros H. unfold limit_extreme. now rewrite H.
Qed.

Lemma fixed_point_fields_witness :
  exists br ba,
    encode_angular_rate rate_1_75_lsb = Ok br /\ length br = 2%nat
    /\ signed 16 (le_value br)
       = sat_trunc (-32768) 32767
           (fdiv (limit_extreme rate_1_75_lsb) ANGULAR_RATE_SCALE)
    /\ encode_angle rate_1_75_lsb = Ok ba /\ length ba = 4%nat
    /\ signed 32 (le_value ba)
       = sat_trunc (-2147483648) 2147483647
           (fdiv (limit_extreme rate_1_75_lsb) ANGLE_SCALE)
    /\ (fgt (fabs rate_1_75_lsb) f_1e6 = false
        -> limit_extreme rate_1_75_lsb = rate_1_75_lsb).
Proof. apply (fixed_point_fields rate_1_75_lsb). reflexivity. Defined.

(** C2 as stated fails: a rate of 1.75 LSB is finite, the documented
    [round] gives the field 2, and the encoder writes 1. *)
Lemma rate_field_truncates_not_rounds :
  is_finite rate_1_75_lsb = true
  /\ exact_quotient rate_1_75_lsb ANGULAR_RATE_SCALE
     = Some (7 * 48677783048764009017473403086438400,
             4 * 48677783048764009017473403086438400)
  /\ documented_rate_field rate_1_75_lsb = Some 2
  /\ exists br, encode_angular_rate rate_1_75_lsb = Ok br
                /\ signed 16 (le_value br) = 1.
Proof.
  split; [reflexivity|]. split; [vm_compute; reflexivity|].
  split; [vm_compute; reflexivity|].
  eexists. split; vm_compute; reflexivity.
Qed.

(** *** Non-finite and extreme values *)

(** The guard of the converters, on a value beyond the bound [c]: the
    value becomes [c] or its opposite, by its sign. *)
Lemma limit_beyond (M : positive) (E : Z) (v : float) :
  SFltb (S754_finite false M E) (SFabs v) = true ->
  py_max (S754_finite true M E) (py_min (S754_finite false M E) v)
  = if fgt v f_zero then S754_finite false M E else S754_finite true M E.
Proof.
  unfold py_max, py_min, fgt, flt, SFltb, f_zero.
  destruct v as [s | s | | s m e]; cbn; try discriminate.
  - destruct s; reflexivity.
  - assert (Hc : Pos.compare_cont Eq m M = CompOpp (Pos.compare_cont Eq M m))
      by (rewrite Pos.compare_cont_antisym; reflexivity).
    rewrite (Z.compare_antisym E e), Hc.
    destruct s; cbn;
      destruct (E ?= e); cbn; try discriminate; try reflexivity;
      destruct (Pos.compare_cont Eq M m); cbn; try discriminate;
      try reflexivity.
Qed.

Lemma limit_extreme_beyond (v : float) :
  fgt (fabs v) f_1e6 = true ->
  limit_extreme v = if fgt v f_zero then f_1e6 else f_neg_1e6.
Proof.
  intros H. unfold limit_extreme. rewrite H.
  apply (limit_beyond 8589934592000000 (-33)). exact H.
Qed.

Lemma encode_extreme (v : float) :
  fgt (fabs v) f_1e6 = true ->
  encode_angular_rate v
  = Ok (le_bytes 2 (if fgt v f_zero then 32767 else -32768))
  /\ encode_angle v
     = Ok (le_bytes 4 (if fgt v f_zero then 2147483647 else -2147483648)).
Proof.
  intros H. rewrite encode_angular_rate_eq, encode_angle_eq.
  rewrite (limit_extreme_beyond v H).
  destruct (fgt v f_zero); split; vm_compute; reflexivity.
Qed.

(** C5, as the code has it: a NaN becomes the zero field; an infinite
    value or one of magnitude above [1e6] is limited to plus or minus [1e6]
    before the division, so that its field is the extreme of the signed
    range on its side, not zero; and every accepted input, whatever its
    values, yields a frame of the fixed length of 27 bytes. *)
Theorem non_finite_and_extreme_inputs (v : float) (self : ARSEncoder)
  (data : list float) (w : World) :
  accepted self data ->
  (is_nan v = true ->
   encode_angular_rate v = Ok (le_bytes 2 0)
   /\ encode_angle v = Ok (le_bytes 4 0))
  /\ (fgt (fabs v) f_1e6 = true ->
      limit_extreme v = (if fgt v f_zero then f_1e6 else f_neg_1e6)
      /\ encode_angular_rate v
         = Ok (le_bytes 2 (if fgt v f_zero then 32767 else -32768))
      /\ encode_angle v
         = Ok (le_bytes 4 (if fgt v f_zero then 2147483647
                           else -2147483648)))
  /\ (is_inf v = true -> fgt (fabs v) f_1e6 = true)
  /\ exists frame,
       (process_matlab_data self data w).1.1 = Ok (Some frame)
       /\ length frame = 27%nat.
Proof.
  intros Hacc. split; [|split; [|split]].
  - destruct v; try discriminate. intros _. split; reflexivity.
  - intros H. split; [apply limit_extreme_beyond, H | apply encode_extreme, H].
  - destruct v; try discriminate. reflexivity.
  - apply accepted_frame_length, Hacc.
Qed.

Lemma non_finite_and_extreme_inputs_witness :
  (is_nan f_2e6 = true ->
   encode_angular_rate f_2e6 = Ok (le_bytes 2 0)
   /\ encode_angle f_2e6 = Ok (le_bytes 4 0))
  /\ (fgt (fabs f_2e6) f_1e6 = true ->
      limit_extreme f_2e6 = (if fgt f_2e6 f_zero then f_1e6 else f_neg_1e6)
      /\ encode_angular_rate f_2e6
         = Ok (le_bytes 2 (if fgt f_2e6 f_zero then 32767 else -32768))
      /\ encode_angle f_2e6
         = Ok (le_bytes 4 (if fgt f_2e6 f_zero then 2147483647
                           else -2147483648)))
  /\ (is_inf f_2e6 = true -> fgt (fabs f_2e6) f_1e6 = true)
  /\ exists frame,
       (process_matlab_data (init false f_0_1) test_data still_world).1.1
       = Ok (Some frame)
       /\ length frame = 27%nat.
Proof.
  apply (non_finite_and_extreme_inputs f_2e6 (init false f_0_1) test_data
           still_world).
  left. reflexivity.
Defined.

(** C5 as stated fails: the value [2e6] is extreme, and its rate field is
    the largest one, 32767, not zero. *)
Lemma extreme_rate_saturates_not_zero :
  fgt (fabs f_2e6) f_1e6 = true
  /\ exists br, encode_angular_rate f_2e6 = Ok br
                /\ signed 16 (le_value br) = 32767
                /\ br <> le_bytes 2 0.
Proof.
  split; [reflexivity|].
  eexists. split; [vm_compute; reflexivity|].
  split; [vm_compute; reflexivity|]. discriminate.
Qed.

(** *** Status words *)

Lemma status_word_1_bits (c m : Z) (a b d : bool) :
  Z.testbit (build_status_word_1 c m a b d) 4 = a
  /\ Z.testbit (build_status_word_1 c m a b d) 5 = b.
Proof.
  unfold build_status_word_1, set_bit_if.
  split; destruct a, b, d;
    repeat (rewrite ?Z.land_spec, ?Z.lor_spec, ?Z.shiftl_spec by lia);
    cbn; rewrite ?andb_false_r; reflexivity.
Qed.

Lemma status_word_3_bits (a b c fa fb fc f ok : bool) :
  Z.testbit (build_status_word_3 a b c fa fb fc f ok) 11 = fa
  /\ Z.testbit (build_status_word_3 a b c fa fb fc f ok) 12 = fb
  /\ Z.testbit (build_status_word_3 a b c fa fb fc f ok) 13 = fc
  /\ Z.testbit (build_status_word_3 a b c fa fb fc f ok) 14 = f.
Proof.
  unfold build_status_word_3, set_bit_if.
  destruct a, b, c, fa, fb, fc, f, ok; repeat split; reflexivity.
Qed.

Lemma has_data_of_eq (d : ARSData) :
  has_data_of d = negb (all_rates_zero d).
Proof.
  unfold has_data_of, all_rates_zero. rewrite !fne_zero.
  destruct (is_zero (prime_x d)), (is_zero (prime_y d)),
    (is_zero (prime_z d)), (is_zero (redundant_x d)),
    (is_zero (redundant_y d)), (is_zero (redundant_z d)); reflexivity.
Qed.

(** C6, as the code has it.  In the status words of a packet, the "rate
    sensor failed" bit (word 1, bit 4) is set exactly when the six rate
    values of the input of that packet are all zero; the "gyro failed" bit
    (word 1, bit 5), the three per-gyro FDC bits and the "FDC failed" bit
    (word 3, bits 11 to 14) all carry the discrepancy flag, which, the
    differences being numbers, is set exactly when the absolute difference
    between the primary and the redundant rate exceeds 0.1 on some axis,
    that is when the largest of the three does. *)
Theorem status_bits (self : ARSEncoder) (d : ARSData) (w : World) :
  is_nan (rate_diff_x d) = false ->
  is_nan (rate_diff_y d) = false ->
  is_nan (rate_diff_z d) = false ->
  let p := (convert_ars_data self d w).1.1 in
  Z.testbit (status_word_1 p) 4 = all_rates_zero d
  /\ Z.testbit (status_word_1 p) 5 = has_discrepancy_of d
  /\ Z.testbit (status_word_3 p) 11 = has_discrepancy_of d
  /\ Z.testbit (status_word_3 p) 12 = has_discrepancy_of d
  /\ Z.testbit (status_word_3 p) 13 = has_discrepancy_of d
  /\ Z.testbit (status_word_3 p) 14 = has_discrepancy_of d
  /\ has_discrepancy_of d
     = fgt (rate_diff_x d) f_0_1 || fgt (rate_diff_y d) f_0_1
       || fgt (rate_diff_z d) f_0_1.
Proof.
  intros Hx Hy Hz p. subst p. rewrite convert_ars_data_packet.
  cbn [status_word_1 status_word_3].
  destruct (status_word_1_bits (message_counter self mod 4) 1
              (negb (has_data_of d)) (has_discrepancy_of d) false)
    as (B4 & B5).
  destruct (status_word_3_bits (has_data_of d) (has_data_of d) (has_data_of d)
              (has_discrepancy_of d) (has_discrepancy_of d)
              (has_discrepancy_of d) (has_discrepancy_of d)
              (has_data_of d && negb (has_discrepancy_of d)))
    as (B11 & B12 & B13 & B14).
  rewrite B4, B5, B11, B12, B13, B14, has_data_of_eq, negb_involutive.
  repeat (split; [reflexivity|]).
  unfold has_discrepancy_of. apply gt_py_max3; auto.
Qed.

Lemma status_bits_witness :
  let p := (convert_ars_data (init false f_0_1) test_ars_data still_world).1.1
  in
  Z.testbit (status_word_1 p) 4 = all_rates_zero test_ars_data
  /\ Z.testbit (status_word_1 p) 5 = has_discrepancy_of test_ars_data
  /\ Z.testbit (status_word_3 p) 11 = has_discrepancy_of test_ars_data
  /\ Z.testbit (status_word_3 p) 12 = has_discrepancy_of test_ars_data
  /\ Z.testbit (status_word_3 p) 13 = has_discrepancy_of test_ars_data
  /\ Z.testbit (status_word_3 p) 14 = has_discrepancy_of test_ars_data
  /\ has_discrepancy_of test_ars_data
     = fgt (rate_diff_x test_ars_data) f_0_1
       || fgt (rate_diff_y test_ars_data) f_0_1
       || fgt (rate_diff_z test_ars_data) f_0_1.
Proof.
  apply (status_bits (init false f_0_1) test_ars_data still_world);
    reflexivity.
Defined.

(** C6 as stated fails: an encoder that has already seen the non-zero
    self-test input sets the "rate sensor failed" bit on a following
    all-zero input. *)
Lemma failed_bit_ignores_earlier_data :
  exists p1 p2,
    convert_all (init false f_0_1) [test_data; zero_data] still_world
    = [Some p1; Some p2]
    /\ existsb (fun v => negb (is_zero v)) (firstn 6 test_data) = true
    /\ Z.testbit (status_word_1 p2) 4 = true.
Proof.
  eexists _, _. split; [vm_compute; reflexivity|].
  split; reflexivity.
Qed.

End ARSFacts.

(** ** Magnetometer encoder *)

Module MagFacts.
Import Mag.

Lemma land_FFFF_mod (x : Z) : Z.land x 0xFFFF = x mod 65536.
Proof. change 0xFFFF with (Z.ones 16). now rewrite Z.land_ones by lia. Qed.

Lemma field_word_eq (f : float) (k : Z) :
  trunc_float f = Some k -> field_word f = Ok (k mod 65536).
Proof.
  intros H. unfold field_word. rewrite (py_int_of_trunc f k H). cbn [rbind].
  now rewrite land_FFFF_mod.
Qed.

Lemma pack_H_mod (big : bool) (k : Z) :
  pack_uint big 2 (k mod 65536)
  = Ok (if big then be_bytes 2 (k mod 65536) else le_bytes 2 (k mod 65536)).
Proof.
  apply pack_uint_ok. change (2 ^ (8 * Z.of_nat 2)) with 65536.
  apply Z.mod_pos_bound. lia.
Qed.

Lemma status_byte_ok (s : MagnetometerStatus) :
  byte_checked (status_value s) = Ok (byte_of_Z (status_value s)).
Proof. destruct s; reflexivity. Qed.

Lemma type_byte_ok (t : MessageType) :
  pack_B (type_value t) = Ok [byte_of_Z (type_value t)].
Proof. destruct t; reflexivity. Qed.

(** The frame that holds the given header and field words. *)
Lemma rs485_encode_magdata_eq (self : RS485Encoder) (p : MagnetometerPacket)
  (kx ky kz : Z) :
  trunc_float (x_field p) = Some kx ->
  trunc_float (y_field p) = Some ky ->
  trunc_float (z_field p) = Some kz ->
  0 <= sequence_counter self < 65536 ->
  let covered :=
    [byte_of_Z (type_value (message_type p)); byte_of_Z 0x01]
    ++ le_bytes 2 (sequence_counter self)
    ++ [byte_of_Z 0x01]
    ++ le_bytes 2 (kx mod 65536) ++ le_bytes 2 (ky mod 65536)
    ++ le_bytes 2 (kz mod 65536)
    ++ [byte_of_Z (status_value (status p))] in
  rs485_encode_magdata self p
  = Ok (covered ++ le_bytes 2 (_calculate_crc16 covered),
        mkRS485 (sequence_counter self + 1)).
Proof.
  intros Hx Hy Hz Hseq covered. unfold rs485_encode_magdata, pack_le_BBH.
  rewrite type_byte_ok. cbn [rbind].
  change (pack_B 1) with (Ok (A:=bytes) [byte_of_Z 1]). cbn [rbind].
  unfold pack_le_H at 1. rewrite (pack_uint_ok false 2) by exact Hseq.
  cbn [rbind].
  rewrite (field_word_eq _ _ Hx), (field_word_eq _ _ Hy),
    (field_word_eq _ _ Hz). cbn [rbind].
  unfold pack_le_H. rewrite !(pack_H_mod false). cbn [rbind].
  rewrite status_byte_ok. cbn [rbind].
  change (byte_checked 1) with (Ok (byte_of_Z 1)). cbn [rbind].
  rewrite (pack_uint_ok false 2).
  - cbn [rbind]. subst covered. repeat rewrite <- app_assoc. reflexivity.
  - unfold _calculate_crc16. rewrite land_FFFF_mod.
    change (2 ^ (8 * Z.of_nat 2)) with 65536. apply Z.mod_pos_bound. lia.
Qed.

Lemma can_encode_magdata_eq (p : MagnetometerPacket) (kx ky kz : Z) :
  trunc_float (x_field p) = Some kx ->
  trunc_float (y_field p) = Some ky ->
  trunc_float (z_field p) = Some kz ->
  can_encode_magdata p
  = Ok (CAN_DATA_ID,
        be_bytes 2 (kx mod 65536) ++ be_bytes 2 (ky mod 65536)
        ++ be_bytes 2 (kz mod 65536)
        ++ [byte_of_Z (status_value (status p))]).
Proof.
  intros Hx Hy Hz. unfold can_encode_magdata.
  rewrite (field_word_eq _ _ Hx), (field_word_eq _ _ Hy),
    (field_word_eq _ _ Hz). cbn [rbind].
  unfold pack_be_H. rewrite !(pack_H_mod true). cbn [rbind].
  rewrite status_byte_ok. reflexivity.
Qed.

(** The CRC of the model is CRC-16 with the reflected polynomial 0xA001
    and the initial value 0xFFFF: on the digits 1 to 9 it gives the
    published check value 0x4B37. *)
Example crc16_check_value : _calculate_crc16 check_input = 0x4B37.
Proof. vm_compute. reflexivity. Qed.

(** C4, as the code has it: for fields that are numbers and a sequence
    counter that fits 16 bits, the RS485 data frame is 14 bytes long: the
    4-byte header (message type, command, 16-bit sequence counter), the
    command byte once more, the 7-byte payload (three little-endian 16-bit
    field words and the status byte) and the 2-byte CRC-16 of all that
    precedes it; the call advances the sequence counter by one. *)
Theorem rs485_frame_layout (self : RS485Encoder) (p : MagnetometerPacket)
  (kx ky kz : Z) :
  trunc_float (x_field p) = Some kx ->
  trunc_float (y_field p) = Some ky ->
  trunc_float (z_field p) = Some kz ->
  0 <= sequence_counter self < 65536 ->
  exists frame header command payload crc,
    rs485_encode_magdata self p
    = Ok (frame, mkRS485 (sequence_counter self + 1))
    /\ frame = header ++ command ++ payload ++ crc
    /\ length frame = 14%nat
    /\ length header = 4%nat /\ length command = 1%nat
    /\ length payload = 7%nat /\ length crc = 2%nat
    /\ header = [byte_of_Z (type_value (message_type p)); byte_of_Z 0x01]
                ++ le_bytes 2 (sequence_counter self)
    /\ command = [byte_of_Z 0x01]
    /\ payload = le_bytes 2 (kx mod 65536) ++ le_bytes 2 (ky mod 65536)
                 ++ le_bytes 2 (kz mod 65536)
                 ++ [byte_of_Z (status_value (status p))]
    /\ le_value crc = _calculate_crc16 (header ++ command ++ payload).
Proof.
  intros Hx Hy Hz Hseq.
  pose proof (rs485_encode_magdata_eq self p kx ky kz Hx Hy Hz Hseq) as E.
  cbv zeta in E.
  set (header := [byte_of_Z (type_value (message_type p)); byte_of_Z 1]
                 ++ le_bytes 2 (sequence_counter self)).
  set (command := [byte_of_Z 1]).
  set (payload := le_bytes 2 (kx mod 65536) ++ le_bytes 2 (ky mod 65536)
                  ++ le_bytes 2 (kz mod 65536)
                  ++ [byte_of_Z (status_value (status p))]).
  set (crc := le_bytes 2 (_calculate_crc16 (header ++ command ++ payload))).
  exists (header ++ command ++ payload ++ crc), header, command, payload, crc.
  split.
  { rewrite E. subst header command payload crc.
    repeat rewrite <- app_assoc. reflexivity. }
  split; [reflexivity|]. split; [reflexivity|]. split; [reflexivity|].
  split; [reflexivity|]. split; [reflexivity|]. split; [reflexivity|].
  split; [reflexivity|]. split; [reflexivity|]. split; [reflexivity|].
  subst crc. rewrite le_value_le_bytes.
  change (2 ^ (8 * Z.of_nat 2)) with 65536.
  unfold _calculate_crc16. rewrite land_FFFF_mod.
  apply Z.mod_mod. lia.
Qed.

Lemma rs485_frame_layout_witness :
  exists frame header command payload crc,
    rs485_encode_magdata (mkRS485 0) test_packet = Ok (frame, mkRS485 (0 + 1))
    /\ frame = header ++ command ++ payload ++ crc
    /\ length frame = 14%nat
    /\ length header = 4%nat /\ length command = 1%nat
    /\ length payload = 7%nat /\ length crc = 2%nat
    /\ header = [byte_of_Z (type_value MAGDATA); byte_of_Z 0x01]
                ++ le_bytes 2 0
    /\ command = [byte_of_Z 0x01]
    /\ payload = le_bytes 2 (25000 mod 65536) ++ le_bytes 2 (-5000 mod 65536)
                 ++ le_bytes 2 (40000 mod 65536)
                 ++ [byte_of_Z (status_value NORMAL)]
    /\ le_value crc = _calculate_crc16 (header ++ command ++ payload).
Proof.
  apply (rs485_frame_layout (mkRS485 0) test_packet 25000 (-5000) 40000);
    [reflexivity | reflexivity | reflexivity | cbn; lia].
Defined.

(** C4 as stated fails: the frame of the self-test packet has 14 bytes,
    not 13. *)
Lemma rs485_frame_not_13_bytes :
  exists frame self',
    rs485_encode_magdata (mkRS485 0) test_packet = Ok (frame, self')
    /\ length frame = 14%nat /\ length frame <> 13%nat.
Proof.
  eexists _, _. split; [vm_compute; reflexivity|].
  split; [reflexivity | discriminate].
Qed.

(** C9: in the CAN and in the RS485 data encoding, each field that is a
    number goes on the wire as its truncation toward zero modulo 2^16: a
    value outside the signed 16-bit range wraps and does not saturate. *)
Theorem mag_field_wraps (self : RS485Encoder) (p : MagnetometerPacket)
  (kx ky kz : Z) :
  trunc_float (x_field p) = Some kx ->
  trunc_float (y_field p) = Some ky ->
  trunc_float (z_field p) = Some kz ->
  0 <= sequence_counter self < 65536 ->
  exists data frame self',
    can_encode_magdata p = Ok (CAN_DATA_ID, data)
    /\ rs485_encode_magdata self p = Ok (frame, self')
    /\ be_value (firstn 2 data) = kx mod 2 ^ 16
    /\ be_value (firstn 2 (skipn 2 data)) = ky mod 2 ^ 16
    /\ be_value (firstn 2 (skipn 4 data)) = kz mod 2 ^ 16
    /\ le_value (firstn 2 (skipn 5 frame)) = kx mod 2 ^ 16
    /\ le_value (firstn 2 (skipn 7 frame)) = ky mod 2 ^ 16
    /\ le_value (firstn 2 (skipn 9 frame)) = kz mod 2 ^ 16.
Proof.
  intros Hx Hy Hz Hseq.
  pose proof (rs485_encode_magdata_eq self p kx ky kz Hx Hy Hz Hseq) as E.
  cbv zeta in E.
  eexists _, _, _. split; [apply (can_encode_magdata_eq p kx ky kz); auto|].
  split; [exact E|].
  assert (Hm : forall k, (k mod 65536) mod 65536 = k mod 65536)
    by (intros k; apply Z.mod_mod; lia).
  change (2 ^ 16) with 65536.
  repeat split.
  - change (firstn 2 _) with (be_bytes 2 (kx mod 65536)).
    rewrite be_value_be_bytes. apply Hm.
  - change (firstn 2 _) with (be_bytes 2 (ky mod 65536)).
    rewrite be_value_be_bytes. apply Hm.
  - change (firstn 2 _) with (be_bytes 2 (kz mod 65536)).
    rewrite be_value_be_bytes. apply Hm.
  - change (firstn 2 _) with (le_bytes 2 (kx mod 65536)).
    rewrite le_value_le_bytes. apply Hm.
  - change (firstn 2 _) with (le_bytes 2 (ky mod 65536)).
    rewrite le_value_le_bytes. apply Hm.
  - change (firstn 2 _) with (le_bytes 2 (kz mod 65536)).
    rewrite le_value_le_bytes. apply Hm.
Qed.

(** The example of the claim: 70000 nT goes on the wire as 4464, in both
    encodings. *)
Lemma mag_field_wraps_witness :
  exists data frame self',
    can_encode_magdata wide_packet = Ok (CAN_DATA_ID, data)
    /\ rs485_encode_magdata (mkRS485 0) wide_packet = Ok (frame, self')
    /\ be_value (firstn 2 data) = 70000 mod 2 ^ 16
    /\ be_value (firstn 2 (skipn 2 data)) = -5000 mod 2 ^ 16
    /\ be_value (firstn 2 (skipn 4 data)) = 40000 mod 2 ^ 16
    /\ le_value (firstn 2 (skipn 5 frame)) = 70000 mod 2 ^ 16
    /\ le_value (firstn 2 (skipn 7 frame)) = -5000 mod 2 ^ 16
    /\ le_value (firstn 2 (skipn 9 frame)) = 40000 mod 2 ^ 16.
Proof.
  apply (mag_field_wraps (mkRS485 0) wide_packet 70000 (-5000) 40000);
    [reflexivity | reflexivity | reflexivity | cbn; lia].
Defined.

End MagFacts.

(** ** Reaction wheel encoder *)

Module RWAFacts.
Import RWA.

Lemma derive_status_cases (p : RWAPacket) :
  derive_status p = NORMAL \/ derive_status p = WARNING
  \/ derive_status p = CRITICAL.
Proof.
  unfold derive_status.
  destruct (_ || _); [auto|]. destruct (_ || _); auto.
Qed.

(** The status byte of a packet that is not in FAULT has its bit 7
    clear. *)
Lemma status_byte_no_fault (p : RWAPacket) :
  status p <> FAULT ->
  Z.testbit (_build_status_byte p) 7 = false
  /\ 0 <= _build_status_byte p < 256.
Proof.
  intros H. unfold _build_status_byte.
  destruct (status p); try congruence; destruct (mode p);
    (split; [reflexivity | split; cbv; congruence]).
Qed.

Lemma message_head_inv (self : RWAMessageEncoder) (p : RWAPacket)
  (m : bytes) :
  message_head self p = Ok m ->
  exists adr oc,
    m = [adr; oc; byte_of_Z (_build_status_byte p)]
        ++ map byte_of_Z [0; 0; 0].
Proof.
  unfold message_head. intros H. rbind_inv H.
  inversion H; subst. unfold byte_checked in *.
  destruct (_ && _) in E1; [|discriminate]. inversion E1. eauto.
Qed.

(** Each of the three messages starts with the header. *)
Lemma frame_status_byte (self : RWAMessageEncoder) (p : RWAPacket)
  (frame : bytes) :
  encode_health_status self p = Ok frame
  \/ encode_speed_telemetry self p = Ok frame
  \/ encode_current_telemetry self p = Ok frame ->
  frame !! 2%nat = Some (byte_of_Z (_build_status_byte p)).
Proof.
  unfold encode_health_status, encode_speed_telemetry,
    encode_current_telemetry, message_close.
  intros [H | [H | H]]; rbind_inv H; inversion H; subst;
    match goal with
    | E : message_head _ _ = Ok _ |- _ =>
        destruct (message_head_inv _ _ _ E) as (adr & oc & ->)
    end; reflexivity.
Qed.

Lemma process_with_inv
  (encode : ReactionWheelEncoder -> RWAPacket -> result bytes)
  (self : ReactionWheelEncoder) (data : list float) (w : World)
  (frame : bytes) :
  (process_with encode self data w).1.1 = Ok (Some frame) ->
  exists p, (convert_matlab_data self data w).1.1 = Some p
            /\ encode (convert_matlab_data self data w).1.2 p = Ok frame.
Proof.
  unfold process_with.
  destruct (convert_matlab_data self data w) as [[[p|] s'] w']; cbn.
  - destruct (encode s' p) as [b | e] eqn:E; [|discriminate].
    intros H. inversion H; subst. eauto.
  - discriminate.
Qed.

(** C10: for every 4-float input the derived status is NORMAL, WARNING or
    CRITICAL, and in every health, speed or current frame built from the
    input the status byte (the third byte) has its fault bit 0x80 clear. *)
Theorem no_fault_bit (self : ReactionWheelEncoder) (data : list float)
  (w : World) :
  length data = 4%nat ->
  exists p,
    (convert_matlab_data self data w).1.1 = Some p
    /\ (status p = NORMAL \/ status p = WARNING \/ status p = CRITICAL)
    /\ forall frame,
         (process_matlab_data_health self data w).1.1 = Ok (Some frame)
         \/ (process_matlab_data_speed self data w).1.1 = Ok (Some frame)
         \/ (process_matlab_data_current self data w).1.1 = Ok (Some frame) ->
         exists b, frame !! 2%nat = Some b
                   /\ b = byte_of_Z (_build_status_byte p)
                   /\ fault_bit b = false.
Proof.
  intros Hlen.
  do 5 (destruct data as [|? data]; try discriminate Hlen).
  assert (Hc : exists p, (convert_matlab_data self [f; f0; f1; f2] w).1.1
                         = Some p
                         /\ status p = derive_status p).
  { unfold convert_matlab_data. destruct (time_time w) as [now w1].
    cbn. eexists. split; reflexivity. }
  destruct Hc as (p & Hc & Hst). exists p. split; [exact Hc|].
  assert (Hs : status p = NORMAL \/ status p = WARNING \/ status p = CRITICAL)
    by (rewrite Hst; apply derive_status_cases).
  split; [exact Hs|].
  intros frame H.
  assert (Hnf : status p <> FAULT) by (destruct Hs as [-> | [-> | ->]]; discriminate).
  destruct (status_byte_no_fault p Hnf) as (Hbit & Hrange).
  exists (byte_of_Z (_build_status_byte p)).
  split.
  - unfold process_matlab_data_health, process_matlab_data_speed,
      process_matlab_data_current in H.
    destruct H as [H | [H | H]];
      apply process_with_inv in H; destruct H as (p' & Hc' & He);
      rewrite Hc in Hc'; inversion Hc'; subst p';
      unfold encode_health_status_of, encode_speed_telemetry_of,
        encode_current_telemetry_of in He.
    + exact (frame_status_byte _ (with_telemetry_type p HEALTH_STATUS) frame
               (or_introl He)).
    + exact (frame_status_byte _ (with_telemetry_type p SPEED_TELEMETRY) frame
               (or_intror (or_introl He))).
    + exact (frame_status_byte _ (with_telemetry_type p CURRENT_TELEMETRY)
               frame (or_intror (or_intror He))).
  - split; [reflexivity|]. unfold fault_bit.
    rewrite Z_of_byte_of_Z, Z.mod_small by lia. exact Hbit.
Qed.

Lemma no_fault_bit_witness :
  exists p frame b,
    (convert_matlab_data (init 1) test_data still_world).1.1 = Some p
    /\ (status p = NORMAL \/ status p = WARNING \/ status p = CRITICAL)
    /\ (process_matlab_data_health (init 1) test_data still_world).1.1
       = Ok (Some frame)
    /\ frame !! 2%nat = Some b
    /\ fault_bit b = false.
Proof.
  destruct (no_fault_bit (init 1) test_data still_world eq_refl)
    as (p & Hc & Hs & Hf).
  destruct (process_matlab_data_health (init 1) test_data still_world)
    as [[r s'] w'] eqn:E.
  assert (Hr : exists frame, r = Ok (Some frame)).
  { vm_compute in E. inversion E. eauto. }
  destruct Hr as (frame & ->).
  destruct (Hf frame (or_introl eq_refl)) as (b & Hb & _ & Hbit).
  exists p, frame, b. auto.
Defined.

End RWAFacts.

(** ** Invariants of stateful methods *)

Section Keeps.
Context {S : Type} (inv : S -> Prop).

Lemma keeps_ret {A : Type} (a : A) (R : A -> Prop) :
  R a -> keeps inv (st_ret a) R.
Proof.
  intros Ha s Hs. split; [exact Hs|].
  intros b E. cbn in E. inversion E. subst. exact Ha.
Qed.

Lemma keeps_bind {A B : Type} (m : ST S A) (k : A -> ST S B)
  (R1 : A -> Prop) (R2 : B -> Prop) :
  keeps inv m R1 -> (forall a, R1 a -> keeps inv (k a) R2) ->
  keeps inv (st_bind m k) R2.
Proof.
  intros Hm Hk s Hs. unfold st_bind.
  destruct (Hm s Hs) as (Hinv & Hret).
  destruct (m s) as [[a | e] s']; cbn in *.
  - apply (Hk a (Hret a eq_refl) s' Hinv).
  - split; [exact Hinv | discriminate].
Qed.

Lemma keeps_modify (f : S -> S) :
  (forall s, inv s -> inv (f s)) ->
  keeps inv (st_modify f) (fun _ => True).
Proof. intros Hf s Hs. split; [apply Hf, Hs | trivial]. Qed.

Lemma keeps_get : keeps inv st_get inv.
Proof.
  intros s Hs. split; [exact Hs|].
  intros a E. cbn in E. inversion E. subst. exact Hs.
Qed.

Lemma keeps_lift {A : Type} (r : result A) :
  keeps inv (st_lift r) (fun _ => True).
Proof. intros s Hs. split; [exact Hs | trivial]. Qed.

Lemma keeps_weaken {A : Type} (m : ST S A) (R R' : A -> Prop) :
  keeps inv m R -> (forall a, R a -> R' a) -> keeps inv m R'.
Proof.
  intros Hm HR s Hs. destruct (Hm s Hs) as (Hinv & Hret).
  split; [exact Hinv | auto].
Qed.

Lemma keeps_if {A : Type} (c : bool) (m1 m2 : ST S A) (R : A -> Prop) :
  keeps inv m1 R -> keeps inv m2 R -> keeps inv (if c then m1 else m2) R.
Proof. destruct c; auto. Qed.

End Keeps.

(** ** Channel listeners *)

Module ListenerFacts.
Import Wire Detector Decoding.

Lemma between_infinities_finite (v : float) :
  between_infinities v = is_finite v.
Proof. destruct v as [s | s | | s m e]; try destruct s; reflexivity. Qed.

Lemma feq_refl_finite (v : float) : feq v v = negb (is_nan v).
Proof.
  destruct v as [s | s | | s m e]; try destruct s; try reflexivity;
    unfold feq, SFeqb, SFcompare; rewrite Z.compare_refl;
    change (PosDef.Pos.compare_cont Eq m m) with (Pos.compare m m);
    rewrite Pos.compare_refl; reflexivity.
Qed.

Lemma udp_validation (v : float) :
  negb (feq v v) || feq (fabs v) f_inf = negb (is_finite v).
Proof.
  rewrite feq_refl_finite.
  destruct v as [s | s | | s m e]; try destruct s; reflexivity.
Qed.

Lemma unpack_d_8 (big : bool) (data : bytes) :
  length data = 8%nat ->
  unpack_d big data = Ok (if big then be_of data else le_of data).
Proof.
  intros H. unfold unpack_d. rewrite H. destruct big; reflexivity.
Qed.

Lemma tcp_parse_with_eq (detection : option EndiannessDetection)
  (data : bytes) :
  length data = 8%nat ->
  TcpEndian.parse_with detection data
  = if trusted f_0_5 detection then validated (by_verdict detection data)
    else Some (pick TcpEndian.reasonable data).
Proof.
  intros H. unfold TcpEndian.parse_with, trusted, by_verdict, pick, validated.
  destruct detection as [d|].
  - destruct (fgt (confidence d) f_0_5).
    + rewrite (unpack_d_8 _ _ H), between_infinities_finite.
      destruct (is_big_endian d);
        [destruct (is_finite (be_of data)) | destruct (is_finite (le_of data))];
        reflexivity.
    + rewrite !(unpack_d_8 _ _ H).
      destruct (TcpEndian.reasonable (le_of data)),
        (TcpEndian.reasonable (be_of data)); reflexivity.
  - rewrite !(unpack_d_8 _ _ H).
    destruct (TcpEndian.reasonable (le_of data)),
      (TcpEndian.reasonable (be_of data)); reflexivity.
Qed.

Lemma udp_parse_with_eq (detection : option EndiannessDetection)
  (data : bytes) :
  length data = 8%nat ->
  UdpEndian.parse_with detection data
  = if trusted f_0_7 detection then validated (by_verdict detection data)
    else validated (pick UdpEndian.reasonable data).
Proof.
  intros H.
  unfold UdpEndian.parse_with, UdpEndian.fallback_orientation,
    UdpEndian.decode_validated, trusted, by_verdict, pick, validated.
  destruct detection as [d|].
  - destruct (fgt (confidence d) f_0_7).
    + rewrite (unpack_d_8 _ _ H), udp_validation.
      destruct (is_big_endian d);
        [destruct (is_finite (be_of data)) | destruct (is_finite (le_of data))];
        reflexivity.
    + rewrite !(unpack_d_8 _ _ H).
      destruct (UdpEndian.reasonable (le_of data)),
        (UdpEndian.reasonable (be_of data)); cbn [andb negb];
        rewrite (unpack_d_8 _ _ H), udp_validation;
        match goal with
        | |- context [is_finite ?v] => destruct (is_finite v)
        end; reflexivity.
  - rewrite !(unpack_d_8 _ _ H).
    destruct (UdpEndian.reasonable (le_of data)),
      (UdpEndian.reasonable (be_of data)); cbn [andb negb];
      rewrite (unpack_d_8 _ _ H), udp_validation;
      match goal with
      | |- context [is_finite ?v] => destruct (is_finite v)
      end; reflexivity.
Qed.

(** The TCP reader hands the sample to the detector and then decides on
    the verdict the detector holds; the latest-value vector is not
    touched. *)
Lemma tcp_parse_stateful
  (r1 r2 r3 : list bytes -> result ScorerResult) (data : bytes)
  (port_index : nat) (self : TcpEndian.Reader) :
  length data = 8%nat ->
  let out :=
    TcpEndian._parse_float_data_with_endianness r1 r2 r3 data port_index self
  in
  TcpEndian.latest_data out.2 = TcpEndian.latest_data self
  /\ TcpEndian.packet_counts out.2 = TcpEndian.packet_counts self
  /\ forall v, out.1 = Ok v ->
       v = TcpEndian.parse_with
             (get_detection_result (TcpEndian.endianness_detector out.2)
                port_index) data.
Proof.
  intros H. unfold TcpEndian._parse_float_data_with_endianness.
  rewrite H. cbn [Nat.eqb negb].
  unfold st_bind, TcpEndian.detector_add_sample, st_get, st_ret.
  destruct (add_sample r1 r2 r3 (TcpEndian.endianness_detector self)
              port_index data (TcpEndian.world self)) as [[[[]|e] det] w];
    cbn; repeat split; try reflexivity; intros v E; inversion E; reflexivity.
Qed.

(** C8, as the code has it.  For an 8-byte sample, the TCP reader decodes
    by the verdict its detector holds once the sample is added exactly
    when there is a verdict and its confidence exceeds 0.5, and passes the
    value on if it is a number; otherwise it takes the big-endian reading
    when that alone has a magnitude between 1e-6 and 1e6, and the
    little-endian reading when both or neither have.  The UDP reader does
    the same with the threshold 0.7 and the bound 1000 on the magnitude of
    a number, and passes on only numbers. *)
Theorem listener_decoding
  (r1 r2 r3 : list bytes -> result ScorerResult) (self : TcpEndian.Reader)
  (det : EndiannessDetector) (data : bytes) (port_index : nat) :
  length data = 8%nat ->
  let tcp :=
    TcpEndian._parse_float_data_with_endianness r1 r2 r3 data port_index self
  in
  let verdict_tcp :=
    get_detection_result (TcpEndian.endianness_detector tcp.2) port_index in
  let verdict_udp := get_detection_result det port_index in
  (forall v, tcp.1 = Ok v ->
     v = if trusted f_0_5 verdict_tcp
         then validated (by_verdict verdict_tcp data)
         else Some (pick TcpEndian.reasonable data))
  /\ UdpEndian._parse_float_data_with_endianness det data port_index
     = if trusted f_0_7 verdict_udp
       then validated (by_verdict verdict_udp data)
       else validated (pick UdpEndian.reasonable data).
Proof.
  intros H tcp verdict_tcp verdict_udp. split.
  - intros v E.
    destruct (tcp_parse_stateful r1 r2 r3 data port_index self H)
      as (_ & _ & Hv).
    rewrite (Hv v E). apply tcp_parse_with_eq, H.
  - unfold UdpEndian._parse_float_data_with_endianness. rewrite H.
    cbn [Nat.eqb negb]. apply udp_parse_with_eq, H.
Qed.

Lemma listener_decoding_witness :
  let tcp :=
    TcpEndian._parse_float_data_with_endianness no_opinion no_opinion
      no_opinion one_le 0 (TcpEndian.new still_world) in
  let verdict_tcp :=
    get_detection_result (TcpEndian.endianness_detector tcp.2) 0 in
  let verdict_udp := get_detection_result detector_0_6 0 in
  (forall v, tcp.1 = Ok v ->
     v = if trusted f_0_5 verdict_tcp
         then validated (by_verdict verdict_tcp one_le)
         else Some (pick TcpEndian.reasonable one_le))
  /\ UdpEndian._parse_float_data_with_endianness detector_0_6 one_le 0
     = if trusted f_0_7 verdict_udp
       then validated (by_verdict verdict_udp one_le)
       else validated (pick UdpEndian.reasonable one_le).
Proof.
  apply (listener_decoding no_opinion no_opinion no_opinion
           (TcpEndian.new still_world) detector_0_6 one_le 0).
  reflexivity.
Defined.

(** C8 as stated fails for the UDP reader: its detector holds a
    big-endian verdict of confidence 0.6, which exceeds 0.5, the
    big-endian reading of the sample is a number, and the reader returns
    the little-endian reading. *)
Lemma udp_reader_distrusts_0_6 :
  trusted f_0_5 (get_detection_result detector_0_6 0) = true
  /\ validated (by_verdict (get_detection_result detector_0_6 0) one_le)
     = Some (be_of one_le)
  /\ UdpEndian._parse_float_data_with_endianness detector_0_6 one_le 0
     = Some (le_of one_le)
  /\ le_of one_le <> be_of one_le.
Proof.
  split; [reflexivity|]. split; [vm_compute; reflexivity|].
  split; [vm_compute; reflexivity|]. vm_compute. discriminate.
Qed.

(** *** The enhanced reader keeps its vector finite *)

Create HintDb keeps.

#[local] Hint Resolve keeps_ret keeps_modify keeps_get keeps_lift keeps_if
  : keeps.

Ltac keeps_steps :=
  repeat first
    [ solve [eauto with keeps]
    | eapply keeps_bind; [solve [eauto with keeps] | intros ? ?] ].

Lemma enhanced_with_stats (f : Enhanced.QualityStats -> Enhanced.QualityStats) :
  keeps Enhanced.finite_vector (Enhanced.with_stats f) (fun _ => True).
Proof. apply keeps_modify. auto. Qed.

Lemma enhanced_set_buffer (port : Z) (buf : bytes) :
  keeps Enhanced.finite_vector (Enhanced.set_buffer port buf) (fun _ => True).
Proof. apply keeps_modify. auto. Qed.

Lemma enhanced_set_last_packet_time (port : Z) (t : float) :
  keeps Enhanced.finite_vector (Enhanced.set_last_packet_time port t)
    (fun _ => True).
Proof. apply keeps_modify. auto. Qed.

Lemma enhanced_init_port (port : Z) :
  keeps Enhanced.finite_vector (Enhanced.init_port port) (fun _ => True).
Proof.
  apply keeps_modify. intros s Hs.
  destruct (Enhanced.packet_buffers s !! port); auto.
Qed.

#[local] Hint Resolve enhanced_with_stats enhanced_set_buffer
  enhanced_set_last_packet_time enhanced_init_port : keeps.

Lemma enhanced_with_latest_meta
  (f : Enhanced.ARSData -> Enhanced.ARSData) :
  (forall ld, Enhanced.values (f ld) = Enhanced.values ld) ->
  keeps Enhanced.finite_vector (Enhanced.with_latest f) (fun _ => True).
Proof.
  intros Hf. apply keeps_modify. intros s Hs.
  unfold Enhanced.finite_vector in *. cbn. now rewrite Hf.
Qed.

Lemma enhanced_bump_packet_count (port : Z) :
  keeps Enhanced.finite_vector (Enhanced.bump_packet_count port)
    (fun _ => True).
Proof. unfold Enhanced.bump_packet_count. keeps_steps. Qed.

Lemma enhanced_check_timing (port : Z) (t : float) :
  keeps Enhanced.finite_vector (Enhanced.check_timing port t) (fun _ => True).
Proof. unfold Enhanced.check_timing. keeps_steps. Qed.

#[local] Hint Resolve enhanced_bump_packet_count enhanced_check_timing
  : keeps.

Lemma enhanced_parse_float_data (data : bytes) (big : bool) :
  keeps Enhanced.finite_vector (Enhanced._parse_float_data data big)
    Enhanced.finite_if_some.
Proof.
  unfold Enhanced._parse_float_data.
  destruct (negb (length data =? 8)%nat).
  { eapply keeps_bind; [apply enhanced_with_stats|].
    intros _ _. apply keeps_ret. exact I. }
  destruct (unpack_d big data) as [value | e].
  - rewrite between_infinities_finite.
    destruct (is_finite value) eqn:Hv; cbn [negb].
    + apply keeps_ret. exact Hv.
    + eapply keeps_bind; [apply enhanced_with_stats|].
      intros _ _. apply keeps_ret. exact I.
  - eapply keeps_bind; [apply enhanced_with_stats|].
    intros _ _. apply keeps_ret. exact I.
Qed.

Lemma all_finite_set_field (values : list float) (i : nat) (v : float) :
  is_finite v = true -> Enhanced.all_finite values ->
  Enhanced.all_finite (set_field values i v).
Proof.
  intros Hv H. unfold Enhanced.all_finite, set_field.
  apply Forall_insert; assumption.
Qed.

Lemma enhanced_publish (port : Z) (port_index : nat) (t v : float) :
  is_finite v = true ->
  keeps Enhanced.finite_vector (Enhanced.publish port port_index t v)
    (fun _ => True).
Proof.
  intros Hv. unfold Enhanced.publish.
  eapply keeps_bind.
  { apply keeps_modify. intros s Hs. unfold Enhanced.finite_vector in *. cbn.
    apply all_finite_set_field; assumption. }
  intros _ _.
  repeat first
    [ solve [eauto with keeps]
    | solve [apply enhanced_with_latest_meta; reflexivity]
    | eapply keeps_bind;
      [ first [ solve [eauto with keeps]
              | solve [apply enhanced_with_latest_meta; reflexivity]
              | apply keeps_if ]
      | intros ? ? ] ].
Qed.

Lemma enhanced_handle_sample (data : bytes) (port : Z) (port_index : nat)
  (t : float) :
  keeps Enhanced.finite_vector
    (Enhanced.handle_sample data port port_index t) (fun _ => True).
Proof.
  unfold Enhanced.handle_sample.
  eapply keeps_bind; [apply enhanced_parse_float_data|].
  intros [v|] Hv; cbn in Hv; [|auto with keeps].
  eapply keeps_bind; [apply enhanced_with_stats | intros _ _].
  eapply keeps_bind; [apply enhanced_bump_packet_count | intros _ _].
  eapply keeps_bind; [apply enhanced_publish, Hv | intros _ _].
  auto with keeps.
Qed.

Lemma enhanced_drain (fuel : nat) (port : Z) (port_index : nat) (t : float)
  (n : Z) :
  keeps Enhanced.finite_vector (Enhanced.drain fuel port port_index t n)
    (fun _ => True).
Proof.
  revert n. induction fuel as [|fuel IH]; intros n; cbn [Enhanced.drain].
  - auto with keeps.
  - eapply keeps_bind; [apply keeps_get | intros self _].
    eapply keeps_bind; [apply keeps_lift | intros buf _].
    apply keeps_if; [|auto with keeps].
    eapply keeps_bind; [apply enhanced_set_buffer | intros _ _].
    eapply keeps_bind; [apply enhanced_handle_sample | intros published _].
    apply IH.
Qed.

(** Whatever bytes arrive, a vector of numbers stays a vector of
    numbers. *)
Lemma enhanced_process_packet_data (data : bytes) (port : Z)
  (port_index : nat) (t : float) :
  keeps Enhanced.finite_vector
    (Enhanced._process_packet_data data port port_index t) (fun _ => True).
Proof.
  unfold Enhanced._process_packet_data.
  eapply keeps_bind; [apply enhanced_with_stats | intros _ _].
  eapply keeps_bind; [apply enhanced_init_port | intros _ _].
  eapply keeps_bind; [apply keeps_get | intros self _].
  eapply keeps_bind; [apply keeps_lift | intros buf _].
  eapply keeps_bind; [apply enhanced_set_buffer | intros _ _].
  eapply keeps_bind; [apply enhanced_check_timing | intros _ _].
  eapply keeps_bind; [apply enhanced_drain | intros k _].
  auto with keeps.
Qed.

(** A sample that does not decode to a number: one parse error more, and
    nothing else changes. *)
Lemma enhanced_rejects_sample (data : bytes) (port : Z) (port_index : nat)
  (t : float) (self : Enhanced.Reader) :
  length data = 8%nat -> is_finite (le_of data) = false ->
  Enhanced.handle_sample data port port_index t self
  = (Ok false,
     Enhanced.mkReader (Enhanced.packet_buffers self)
       (Enhanced.last_packet_times self) (Enhanced.packet_counts self)
       (Enhanced.expected_packet_size self)
       (Enhanced.timing_tolerance_ms self)
       (Enhanced.count_parse_error (Enhanced.quality_stats self))
       (Enhanced.latest_data self)).
Proof.
  intros H Hv. unfold Enhanced.handle_sample, Enhanced._parse_float_data.
  rewrite H. cbn [Nat.eqb negb].
  rewrite (unpack_d_8 false data H), between_infinities_finite, Hv.
  reflexivity.
Qed.

(** With a trusted verdict, a sample that does not decode to a number is
    not published by the TCP reader with endianness detection. *)
Lemma tcp_rejects_sample
  (r1 r2 r3 : list bytes -> result ScorerResult) (data : bytes) (port : Z)
  (port_index : nat) (t : float) (self : TcpEndian.Reader) :
  length data = 8%nat ->
  let parsed :=
    TcpEndian._parse_float_data_with_endianness r1 r2 r3 data port_index self
  in
  let verdict :=
    get_detection_result (TcpEndian.endianness_detector parsed.2) port_index
  in
  trusted f_0_5 verdict = true ->
  is_finite (by_verdict verdict data) = false ->
  let out := TcpEndian.handle_sample r1 r2 r3 data port port_index t self in
  TcpEndian.latest_data out.2 = TcpEndian.latest_data self
  /\ TcpEndian.packet_counts out.2 = TcpEndian.packet_counts self
  /\ forall b, out.1 = Ok b -> b = false.
Proof.
  intros H parsed verdict Ht Hv out.
  destruct (tcp_parse_stateful r1 r2 r3 data port_index self H)
    as (Hl & Hc & Hr).
  fold parsed in Hl, Hc, Hr. fold verdict in Hr.
  subst out. unfold TcpEndian.handle_sample, st_bind. fold parsed.
  destruct parsed as [[v | e] s'] eqn:Ep; cbn in *.
  - specialize (Hr v eq_refl).
    rewrite (tcp_parse_with_eq _ _ H) in Hr.
    rewrite Ht in Hr. unfold validated in Hr. rewrite Hv in Hr. subst v.
    cbn. repeat split; try assumption. intros b E. now inversion E.
  - repeat split; try assumption. discriminate.
Qed.

(** *** The loop of the enhanced reader runs to its end *)

Ltac frame_steps :=
  repeat first
    [ apply keeps_ret; exact I
    | apply keeps_lift
    | apply keeps_get
    | apply keeps_modify; intros ? Hframe; exact Hframe
    | apply keeps_if
    | eapply keeps_bind; [| intros ? ?] ].

Lemma enhanced_handle_sample_frame (B : gmap Z bytes) (data : bytes)
  (port : Z) (port_index : nat) (t : float) :
  keeps (Enhanced.buffers_are B)
    (Enhanced.handle_sample data port port_index t) (fun _ => True).
Proof.
  unfold Enhanced.handle_sample, Enhanced._parse_float_data.
  eapply keeps_bind with (R1 := fun _ => True).
  - destruct (negb _); [|destruct (unpack_d false data);
                           [destruct (negb _)|]];
      unfold Enhanced.with_stats; frame_steps.
  - intros [v|] _; [|apply keeps_ret; exact I].
    unfold Enhanced.with_stats, Enhanced.bump_packet_count, Enhanced.publish,
      Enhanced.with_latest, Enhanced.set_last_packet_time.
    frame_steps.
Qed.

Lemma enhanced_drain_exhausts (fuel : nat) (port : Z) (port_index : nat)
  (t : float) (n : Z) (self : Enhanced.Reader) (buf : bytes) (k : Z)
  (final : Enhanced.Reader) :
  Enhanced.expected_packet_size self = 8%nat ->
  Enhanced.packet_buffers self !! port = Some buf ->
  (length buf <= fuel)%nat ->
  Enhanced.drain fuel port port_index t n self = (Ok k, final) ->
  exists rest,
    Enhanced.packet_buffers final !! port = Some rest
    /\ (length rest < 8)%nat.
Proof.
  revert n self buf.
  induction fuel as [|fuel IH]; intros n self buf Hsize Hbuf Hlen.
  - cbn. intros E. inversion E; subst.
    exists buf. split; [exact Hbuf | lia].
  - cbn [Enhanced.drain]. unfold st_bind at 1 2. cbn [st_get].
    unfold st_lift, dict_get. rewrite Hbuf, Hsize.
    destruct (8 <=? length buf)%nat eqn:Hge.
    + apply Nat.leb_le in Hge.
      unfold st_bind at 1. cbn [Enhanced.set_buffer st_modify].
      set (s1 := Enhanced.mkReader _ _ _ _ _ _ _).
      unfold st_bind at 1.
      pose proof (enhanced_handle_sample_frame (Enhanced.packet_buffers s1)
                    (firstn 8 buf) port port_index t s1
                    (conj eq_refl Hsize)) as ((HB & Hsz) & _).
      destruct (Enhanced.handle_sample (firstn 8 buf) port port_index t s1)
        as [[published | e] s2]; cbn in HB, Hsz |- *; [|discriminate].
      apply (IH _ s2 (skipn 8 buf)).
      * exact Hsz.
      * rewrite HB. subst s1. cbn. apply lookup_insert_eq.
      * rewrite length_skipn. lia.
    + apply Nat.leb_gt in Hge. cbn. intros E. inversion E; subst.
      exists buf. split; [exact Hbuf | exact Hge].
Qed.

(** When [_process_packet_data] returns, fewer than 8 bytes are left in
    the buffer of the port: the bound on the rounds of the loop is never
    what stops it. *)
Lemma enhanced_process_drains (data : bytes) (port : Z) (port_index : nat)
  (t : float) (self : Enhanced.Reader) (b : bool) (final : Enhanced.Reader) :
  Enhanced.expected_packet_size self = 8%nat ->
  Enhanced._process_packet_data data port port_index t self = (Ok b, final) ->
  exists rest,
    Enhanced.packet_buffers final !! port = Some rest
    /\ (length rest < 8)%nat.
Proof.
  intros Hsize. unfold Enhanced._process_packet_data.
  unfold st_bind at 1. cbn [Enhanced.with_stats st_modify].
  unfold st_bind at 1. cbn [Enhanced.init_port st_modify].
  match goal with
  | |- context [st_bind st_get _ ?s] => set (s1 := s)
  end.
  assert (Hs1 : Enhanced.expected_packet_size s1 = 8%nat)
    by (subst s1; cbn; destruct (_ !! port); exact Hsize).
  assert (Hb1 : exists buf, Enhanced.packet_buffers s1 !! port = Some buf).
  { subst s1. cbn. destruct (_ !! port) as [buf|] eqn:E; cbn.
    - eauto.
    - exists []. apply lookup_insert_eq. }
  destruct Hb1 as (buf & Hb1).
  unfold st_bind at 1. cbn [st_get]. unfold st_bind at 1.
  unfold st_lift, dict_get. rewrite Hb1.
  unfold st_bind at 1. cbn [Enhanced.set_buffer st_modify].
  set (s2 := Enhanced.mkReader _ _ _ _ _ _ _).
  unfold st_bind at 1.
  assert (Hct : keeps (Enhanced.buffers_are (Enhanced.packet_buffers s2))
                  (Enhanced.check_timing port t) (fun _ => True)).
  { unfold Enhanced.check_timing, Enhanced.with_stats. frame_steps. }
  destruct (Hct s2 (conj eq_refl Hs1)) as ((HB & Hsz) & _).
  destruct (Enhanced.check_timing port t s2) as [[[] | e] s3];
    cbn in HB, Hsz |- *; [|discriminate].
  unfold st_bind at 1.
  destruct (Enhanced.drain (length (buf ++ data)) port port_index t 0 s3)
    as [[k | e] s4] eqn:Ed; cbn; [|discriminate].
  intros E. inversion E; subst.
  apply (enhanced_drain_exhausts (length (buf ++ data)) port port_index t 0
           s3 (buf ++ data) k final Hsz); [| lia | exact Ed].
  rewrite HB. subst s2. cbn. apply lookup_insert_eq.
Qed.



(** C7, where the code departs from it.  On a new TCP reader with
    endianness detection, whose detector has no verdict yet, the 8-byte
    sample that reads as a NaN in little-endian order is not dropped: the
    fallback of the parser returns the little-endian reading unchecked,
    the call reports a processed packet and the NaN is the latest value of
    port index 0.  The enhanced reader, given the same bytes, counts a
    parse error and leaves its latest values as they were. *)
Theorem tcp_fallback_publishes_nan :
  let out :=
    TcpEndian._process_packet_data no_opinion no_opinion no_opinion nan_le
      5000 0 f_1 (TcpEndian.new still_world) in
  let sibling := Enhanced._process_packet_data nan_le 5000 0 f_1 Enhanced.new
  in
  length nan_le = 8%nat
  /\ is_nan (le_of nan_le) = true
  /\ out.1 = Ok true
  /\ TcpEndian.values (TcpEndian.latest_data out.2) !! 0%nat = Some S754_nan
  /\ sibling.1 = Ok false
  /\ Enhanced.latest_data sibling.2 = Enhanced.latest_data Enhanced.new
  /\ Enhanced.parse_errors (Enhanced.quality_stats sibling.2) = 1.
Proof. vm_compute. repeat split; reflexivity. Qed.

End ListenerFacts.

(** * Further properties of the encoders and the listeners *)

(** ** Reaction wheel encoder: checksum, lengths, consistency *)

Module RWAMore.
Import RWA RWAFacts.

Lemma lxor_byte_range (a b : Z) :
  0 <= a < 256 -> 0 <= b < 256 -> 0 <= Z.lxor a b < 256.
Proof.
  intros Ha Hb. split; [apply Z.lxor_nonneg; lia|].
  destruct (Z.eq_dec (Z.lxor a b) 0) as [-> | Hnz]; [lia|].
  assert (Hpos : 0 < Z.lxor a b)
    by (pose proof (proj2 (Z.lxor_nonneg a b) ltac:(lia)); lia).
  apply (Z.log2_lt_pow2 _ 8 Hpos).
  pose proof (Z.log2_lxor a b ltac:(lia) ltac:(lia)) as Hl.
  assert (Hla : Z.log2 a < 8).
  { destruct (Z.eq_dec a 0) as [-> | ?]; [cbn; lia|].
    apply Z.log2_lt_pow2; lia. }
  assert (Hlb : Z.log2 b < 8).
  { destruct (Z.eq_dec b 0) as [-> | ?]; [cbn; lia|].
    apply Z.log2_lt_pow2; lia. }
  lia.
Qed.

Lemma fold_xor_acc (l : bytes) (acc : Z) :
  fold_left (fun crc b => Z.lxor crc (Z_of_byte b)) l acc
  = Z.lxor acc (xor_bytes l).
Proof.
  revert acc. induction l as [|b l IH]; intros acc; cbn.
  - now rewrite Z.lxor_0_r.
  - rewrite IH. now rewrite Z.lxor_assoc.
Qed.

Lemma xor_bytes_range (l : bytes) : 0 <= xor_bytes l < 256.
Proof.
  induction l as [|b l IH]; cbn; [lia|].
  apply lxor_byte_range; [apply Z_of_byte_range | exact IH].
Qed.

(** The checksum of the encoder is the exclusive or of the bytes. *)
Lemma calculate_crc_xor (data : bytes) : _calculate_crc data = xor_bytes data.
Proof.
  unfold _calculate_crc. rewrite fold_xor_acc, Z.lxor_0_l.
  pose proof (xor_bytes_range data) as H.
  change 0xFF with (Z.ones 8). rewrite Z.land_ones by lia.
  apply Z.mod_small. exact H.
Qed.

Lemma message_close_inv (a : byte) (body frame : bytes) :
  message_close (a :: body) = Ok frame ->
  exists ck, frame = a :: body ++ [ck] /\ Z_of_byte ck = xor_bytes body.
Proof.
  unfold message_close. cbn [skipn]. rewrite drop_0, calculate_crc_xor.
  pose proof (xor_bytes_range body) as H.
  unfold byte_checked.
  destruct (Z.leb_spec 0 (xor_bytes body)); [|lia].
  destruct (Z.ltb_spec (xor_bytes body) 256); [|lia].
  cbn. intros E. inversion E. eexists. split; [reflexivity|].
  rewrite Z_of_byte_of_Z. apply Z.mod_small. exact H.
Qed.

Lemma pack_be_f_length (x : float) (b : bytes) :
  pack_be_f x = Ok b -> length b = 4%nat.
Proof.
  unfold pack_be_f. destruct (_ && _); [discriminate|].
  intros E. inversion E. unfold be_bytes.
  now rewrite length_rev, length_le_bytes.
Qed.

Lemma byte_checked_inv (v : Z) (b : byte) :
  byte_checked v = Ok b -> 0 <= v < 256 /\ b = byte_of_Z v.
Proof.
  unfold byte_checked.
  destruct (Z.leb_spec 0 v); destruct (Z.ltb_spec v 256); cbn;
    intros E; inversion E; split; [lia | reflexivity].
Qed.

Lemma message_head_full (self : RWAMessageEncoder) (p : RWAPacket)
  (m : bytes) :
  message_head self p = Ok m ->
  0 <= rwa_address self < 256
  /\ m = [byte_of_Z (rwa_address self);
          byte_of_Z (telemetry_value (telemetry_type p));
          byte_of_Z (_build_status_byte p)]
         ++ map byte_of_Z [0; 0; 0].
Proof.
  unfold message_head. intros H. rbind_inv H. inversion H; subst.
  apply byte_checked_inv in E, E0, E1.
  destruct E as (Ha & ->), E0 as (_ & ->), E1 as (_ & ->). auto.
Qed.



(** The health word has a bit set exactly when a critical threshold is
    crossed. *)
Lemma health_word_zero (p : RWAPacket) :
  _build_health_status_word p = 0
  <-> fgt (motor_current p) f_9_76 = false
      /\ fgt (bus_voltage p) f_42 = false
      /\ flt (bus_voltage p) f_19 = false
      /\ fgt (wheel_speed p) f_4200 = false.
Proof.
  unfold _build_health_status_word.
  destruct (fgt (motor_current p) f_9_76), (fgt (bus_voltage p) f_42),
    (flt (bus_voltage p) f_19), (fgt (wheel_speed p) f_4200);
    cbn; split; try discriminate; try tauto;
    intros (? & ? & ? & ?); discriminate.
Qed.

Lemma convert_matlab_data_four (self : ReactionWheelEncoder)
  (d0 d1 d2 d3 : float) (w : World) :
  convert_matlab_data self [d0; d1; d2; d3] w
  = let raw :=
      mkPacket d0 d1 d2 d3 (fabs (fmul d1 d3)) NORMAL OPERATE HEALTH_STATUS
        (time_time w).1 in
    (Some (with_status_mode raw (derive_status raw) (derive_mode raw)),
     mkEncoder (message_encoder self) (message_counter self + 1),
     (time_time w).2).
Proof. reflexivity. Qed.





End RWAMore.

(** ** Rate sensor encoder: status words, refused inputs, variation *)

Module ARSMore.
Import ARS ARSFacts.

Lemma status_word_1_value (c : Z) (a b : bool) :
  0 <= c < 4 ->
  build_status_word_1 c 1 a b false
  = c + 4 + (if a then 16 else 0) + (if b then 32 else 0).
Proof.
  intros Hc.
  assert (Hcases : c = 0 \/ c = 1 \/ c = 2 \/ c = 3) by lia.
  destruct Hcases as [-> | [-> | [-> | ->]]]; destruct a, b; reflexivity.
Qed.

Lemma status_word_3_value (h d : bool) :
  build_status_word_3 h h h d d d d (h && negb d)
  = (if h then 0x0700 else 0) + (if d then 0x7800 else 0)
    + (if h && negb d then 0x8000 else 0).
Proof. destruct h, d; reflexivity. Qed.


Lemma not_accepted_cases (self : ARSEncoder) (data : list float) :
  ~ accepted self data ->
  length data <> 12%nat
  /\ (length data = 6%nat -> duplicate_to_redundant self = false).
Proof.
  unfold accepted. intros H. split; [tauto|].
  intros H6. destruct (duplicate_to_redundant self); [tauto | reflexivity].
Qed.



Lemma some_state_of (X : RateSensorPacket * ARSEncoder * World) :
  (let '(p, self, w) := X in (Some p, self, w)).1.2 = X.1.2.
Proof. destruct X as [[p s] w]. reflexivity. Qed.

Lemma convert_matlab_data_fields (self : ARSEncoder) (data : list float)
  (w : World) :
  accepted self data ->
  exists d w1,
    (convert_matlab_data self data w).1.1
    = Some (convert_ars_data self d w1).1.1
    /\ (convert_matlab_data self data w).1.2 = (convert_ars_data self d w1).1.2
    /\ data !! 0%nat = Some (prime_x d)
    /\ data !! 1%nat = Some (prime_y d)
    /\ data !! 2%nat = Some (prime_z d)
    /\ data !! angle_offset data = Some (prime_angle_x d)
    /\ data !! S (angle_offset data) = Some (prime_angle_y d)
    /\ data !! S (S (angle_offset data)) = Some (prime_angle_z d).
Proof.
  intros [H | [H Hdup]].
  - do 13 (destruct data as [|? data]; try discriminate H).
    unfold convert_matlab_data.
    destruct (time_time w) as [now w1] eqn:Et.
    rewrite some_packet_of, some_state_of. eexists _, _.
    repeat split; reflexivity.
  - do 7 (destruct data as [|? data]; try discriminate H).
    unfold convert_matlab_data. rewrite Hdup.
    repeat match goal with
           | |- context [_add_variation ?s ?v ?w] =>
               destruct (_add_variation s v w) as [? ?]
           end.
    match goal with
    | |- context [time_time ?w] => destruct (time_time w) as [now wt]
    end.
    rewrite some_packet_of, some_state_of. eexists _, _.
    repeat split; reflexivity.
Qed.




End ARSMore.
